(** * EGP portfolio optimisation: a shallow embedding

    The development follows the Python sources

    - [src/models/single_index_model.py]  (class [SingleIndexModel])
    - [src/models/egp_optimizer.py]       (class [EGPOptimizer])
    - [src/models/portfolio.py]           (class [Portfolio])
    - [src/analysis/backtesting.py]       (class [Backtester])

    Numbers.  A Python/numpy float is modelled by [num]: an exact rational,
    or one of the IEEE special values [PInf], [NInf], [NaN].  numpy does not
    raise on a division by zero, it returns an infinity or a nan, and pandas
    reductions skip nan; both behaviours decide what the code does, so they
    are kept.  Rounding, overflow and the sign of zero are not modelled:
    arithmetic on finite values is exact, and its results are kept as
    reduced fractions ([Qred]) so that the model runs on data.

    Effects.  [warnings.warn] and exceptions are modelled by the monad [M]:
    a computation yields the warnings it emitted and either a value or the
    exception it raised. *)

From Stdlib Require Import QArith Qabs ZArith List String Bool Lia Lra Lqa.
From Stdlib Require Import Setoid Morphisms.
Import ListNotations.

Set Implicit Arguments.

(* ================================================================= *)
(** ** Floats as extended rationals *)

Inductive num : Type :=
| Fin (q : Q)
| PInf
| NInf
| NaN.

Module Num.

Definition zero : num := Fin 0.
Definition one : num := Fin 1.
Definition of_Z (z : Z) : num := Fin (inject_Z z).
Definition of_nat (n : nat) : num := Fin (inject_Z (Z.of_nat n)).

Definition isnan (a : num) : bool :=
  match a with NaN => true | _ => false end.

Definition isfinite (a : num) : bool :=
  match a with Fin _ => true | _ => false end.

(** sign of a finite value: -1, 0 or 1 *)
Definition Qsgn (q : Q) : Z := Z.sgn (Qnum q).

Definition opp (a : num) : num :=
  match a with
  | Fin x => Fin (- x)
  | PInf => NInf
  | NInf => PInf
  | NaN => NaN
  end.

Definition add (a b : num) : num :=
  match a, b with
  | NaN, _ | _, NaN => NaN
  | Fin x, Fin y => Fin (Qred (x + y))
  | PInf, NInf | NInf, PInf => NaN
  | PInf, _ | _, PInf => PInf
  | NInf, _ | _, NInf => NInf
  end.

Definition sub (a b : num) : num := add a (opp b).

(** an infinity of the given sign; the sign 0 gives nan (0 * inf) *)
Definition inf_of_sign (s : Z) : num :=
  match s with
  | Z0 => NaN
  | Zpos _ => PInf
  | Zneg _ => NInf
  end.

Definition sign (a : num) : Z :=
  match a with
  | Fin x => Qsgn x
  | PInf => 1%Z
  | NInf => (-1)%Z
  | NaN => 0%Z
  end.

Definition mul (a b : num) : num :=
  match a, b with
  | NaN, _ | _, NaN => NaN
  | Fin x, Fin y => Fin (Qred (x * y))
  | _, _ => inf_of_sign (sign a * sign b)
  end.

(** [x / 0] is nan for [x = 0] and an infinity of the sign of [x]
    otherwise; a finite value over an infinity is 0. *)
Definition div (a b : num) : num :=
  match a, b with
  | NaN, _ | _, NaN => NaN
  | Fin x, Fin y =>
      if Qeq_bool y 0 then inf_of_sign (Qsgn x) else Fin (Qred (x / y))
  | Fin _, _ => Fin 0
  | _, Fin y =>
      if Qeq_bool y 0 then a else inf_of_sign (sign a * Qsgn y)
  | _, _ => NaN
  end.

Definition abs (a : num) : num :=
  match a with
  | Fin x => Fin (Qabs x)
  | PInf | NInf => PInf
  | NaN => NaN
  end.

(** Comparisons: every comparison with nan is false. *)
Definition ltb (a b : num) : bool :=
  match a, b with
  | NaN, _ | _, NaN => false
  | Fin x, Fin y => negb (Qle_bool y x)
  | NInf, NInf => false
  | NInf, _ => true
  | _, PInf => match a with PInf => false | _ => true end
  | _, _ => false
  end.

Definition gtb (a b : num) : bool := ltb b a.

Definition leb (a b : num) : bool :=
  match a, b with
  | NaN, _ | _, NaN => false
  | Fin x, Fin y => Qle_bool x y
  | NInf, _ => true
  | _, PInf => true
  | _, _ => false
  end.

Definition geb (a b : num) : bool := leb b a.

(** Python's [==] on floats *)
Definition eqb (a b : num) : bool :=
  match a, b with
  | Fin x, Fin y => Qeq_bool x y
  | PInf, PInf | NInf, NInf => true
  | _, _ => false
  end.

(** Equality of values: [Qeq] on finite values, identity elsewhere
    (so [NaN] is related to itself, unlike [eqb]). *)
Definition eq (a b : num) : Prop :=
  match a, b with
  | Fin x, Fin y => x == y
  | PInf, PInf | NInf, NInf | NaN, NaN => True
  | _, _ => False
  end.

(** canonical representative, used to display results *)
Definition canon (a : num) : num :=
  match a with
  | Fin x => Fin (Qred x)
  | _ => a
  end.

End Num.

Declare Scope num_scope.
Delimit Scope num_scope with num.
Bind Scope num_scope with num.
Infix "+" := Num.add : num_scope.
Infix "-" := Num.sub : num_scope.
Infix "*" := Num.mul : num_scope.
Infix "/" := Num.div : num_scope.
Infix "<?" := Num.ltb : num_scope.
Infix ">?" := Num.gtb : num_scope.
Infix "<=?" := Num.leb : num_scope.
Infix ">=?" := Num.geb : num_scope.
Infix "==?" := Num.eqb (at level 70) : num_scope.
Infix "=~" := Num.eq (at level 70) : num_scope.

(* ================================================================= *)
(** ** Exceptions and warnings *)

Definition date := Z.

Inductive exn : Type :=
| ValueError (msg : string)
| TypeError (msg : string)
| OverflowError (msg : string)
| ZeroDivisionError (msg : string)
| KeyError (d : date).

Inductive warning : Type :=
| W_few_common_dates (n : nat)
| W_skipping (symbol : string) (n : nat)
| W_all_Z_zero
| W_insufficient_data (d : date) (n : nat)
| W_optimization_failed (d : date) (e : exn).

Inductive result (A : Type) : Type :=
| Ok (a : A)
| Raise (e : exn).
Arguments Ok {A} a.
Arguments Raise {A} e.

(** A computation: the warnings emitted, in order, and the outcome. *)
Definition M (A : Type) : Type := (list warning * result A)%type.

Definition ret {A} (a : A) : M A := ([], Ok a).
Definition raise {A} (e : exn) : M A := ([], Raise e).
Definition warn (w : warning) : M unit := ([w], Ok tt).

Definition bind {A B} (m : M A) (f : A -> M B) : M B :=
  match m with
  | (ws, Ok a) => let (ws', r) := f a in (ws ++ ws', r)
  | (ws, Raise e) => (ws, Raise e)
  end.

(** [try: m except Exception as e: h e] *)
Definition try_except {A} (m : M A) (h : exn -> M A) : M A :=
  match m with
  | (ws, Raise e) => let (ws', r) := h e in (ws ++ ws', r)
  | _ => m
  end.

Notation "x <- c1 ;; c2" := (bind c1 (fun x => c2))
  (at level 61, c1 at next level, right associativity).
Notation "' pat <- c1 ;; c2" :=
  (bind c1 (fun x => match x with pat => c2 end))
  (at level 61, pat pattern, c1 at next level, right associativity).
Notation "c1 ;;; c2" := (bind c1 (fun _ => c2))
  (at level 61, right associativity).

Definition outcome {A} (m : M A) : result A := snd m.
Definition warnings {A} (m : M A) : list warning := fst m.

(* ================================================================= *)
(** ** pandas Series and numpy vectors *)

(** A [pd.Series] of floats indexed by symbols, in index order. *)
Definition Series := list (string * num).

Module Pd.

Open Scope num_scope.

Definition index (s : Series) : list string := map fst s.
Definition values (s : Series) : list num := map snd s.

(** [Series.sum()], [skipna=True]: nan entries are left out *)
Fixpoint nansum (l : list num) : num :=
  match l with
  | [] => Num.zero
  | x :: l' => if Num.isnan x then nansum l' else x + nansum l'
  end.

Definition sum (s : Series) : num := nansum (values s).

Definition map_values (f : num -> num) (s : Series) : Series :=
  map (fun kv => (fst kv, f (snd kv))) s.

Definition abs (s : Series) : Series := map_values Num.abs s.

(** [s.clip(lower=lo)]: nan stays nan *)
Definition clip_lower (lo : num) (s : Series) : Series :=
  map_values (fun x => if x <? lo then lo else x) s.

(** [s / c] and [s - c] for a scalar [c] *)
Definition div_scalar (s : Series) (c : num) : Series :=
  map_values (fun x => x / c) s.
Definition sub_scalar (s : Series) (c : num) : Series :=
  map_values (fun x => x - c) s.
Definition mul_scalar (s : Series) (c : num) : Series :=
  map_values (fun x => x * c) s.

(** Elementwise operation of two Series with the same index. *)
Fixpoint zip_with (f : num -> num -> num) (a b : Series) : Series :=
  match a, b with
  | (k, x) :: a', (_, y) :: b' => (k, f x y) :: zip_with f a' b'
  | _, _ => []
  end.

(** a boolean Series, by position *)
Definition mask (p : num -> bool) (s : Series) : list bool :=
  map (fun kv => p (snd kv)) s.

Definition any (m : list bool) : bool := existsb (fun b => b) m.

(** [s[m]]: the entries selected by the mask *)
Fixpoint select (m : list bool) (s : Series) : Series :=
  match m, s with
  | b :: m', kv :: s' => if b then kv :: select m' s' else select m' s'
  | _, _ => []
  end.

(** [s[m] = f(s[m])]: the entries selected by the mask are replaced *)
Fixpoint update (m : list bool) (f : num -> num) (s : Series) : Series :=
  match m, s with
  | b :: m', (k, x) :: s' =>
      (k, if b then f x else x) :: update m' f s'
  | _, _ => s
  end.

Fixpoint lookup (k : string) (s : Series) : option num :=
  match s with
  | [] => None
  | (k', x) :: s' => if String.eqb k k' then Some x else lookup k s'
  end.

Definition mem (k : string) (l : list string) : bool :=
  existsb (String.eqb k) l.

(** the labels of [l] not in [seen], first occurrences only *)
Fixpoint unique_from (seen l : list string) : list string :=
  match l with
  | [] => []
  | k :: l' =>
      if mem k seen then unique_from seen l'
      else k :: unique_from (k :: seen) l'
  end.

(** [a.intersection(b)] of two indexes: the labels of [a] that are in
    [b], in the order of [a], once each. *)
Definition intersection (a b : list string) : list string :=
  unique_from [] (filter (fun k => mem k b) a).

(** [s.loc[labels]] for labels known to be in the index *)
Fixpoint loc (labels : list string) (s : Series) : Series :=
  match labels with
  | [] => []
  | k :: ls =>
      match lookup k s with
      | Some x => (k, x) :: loc ls s
      | None => loc ls s
      end
  end.

(** [pd.Series(c, index=labels)] *)
Definition const (c : num) (labels : list string) : Series :=
  map (fun k => (k, c)) labels.

End Pd.

(** Python's [a / b] on plain floats and ints raises on a zero divisor
    (numpy's does not). *)
Definition py_div (a b : num) : M num :=
  if (b ==? Num.zero)%num then raise (ZeroDivisionError "float division by zero")
  else ret (a / b)%num.

(* ================================================================= *)
(** ** [EGPOptimizer] (src/models/egp_optimizer.py) *)

Module EGPOptimizer.

Open Scope num_scope.

Record t : Type := mk {
  expected_returns : Series;
  betas : Series;
  residual_vars : Series;
  market_var : num;
  risk_free_rate : num;
  symbols : list string;
  n_stocks : nat;
  C0 : option num;
  Z_values : option Series;
  weights : option Series
}.

Definition set_C0 (self : t) (c : num) : t :=
  mk (expected_returns self) (betas self) (residual_vars self)
     (market_var self) (risk_free_rate self) (symbols self)
     (n_stocks self) (Some c) (Z_values self) (weights self).

Definition set_Z_values (self : t) (z : Series) : t :=
  mk (expected_returns self) (betas self) (residual_vars self)
     (market_var self) (risk_free_rate self) (symbols self)
     (n_stocks self) (C0 self) (Some z) (weights self).

Definition set_weights (self : t) (w : Series) : t :=
  mk (expected_returns self) (betas self) (residual_vars self)
     (market_var self) (risk_free_rate self) (symbols self)
     (n_stocks self) (C0 self) (Z_values self) (Some w).

(** [__init__]; the [isinstance] test is discharged by the types. *)
(** "Align all series" *)
Definition aligned (expected_returns0 betas0 residual_vars0 : Series)
  : list string :=
  Pd.intersection
    (Pd.intersection (Pd.index expected_returns0) (Pd.index betas0))
    (Pd.index residual_vars0).

Definition init (expected_returns0 betas0 residual_vars0 : Series)
    (market_var0 risk_free_rate0 : num) : M t :=
  let common_symbols :=
    aligned expected_returns0 betas0 residual_vars0 in
  if Nat.eqb (List.length common_symbols) 0 then
    raise (ValueError "No common symbols found in inputs")
  else
    let self :=
      mk (Pd.loc common_symbols expected_returns0)
         (Pd.loc common_symbols betas0)
         (Pd.loc common_symbols residual_vars0)
         market_var0 risk_free_rate0
         common_symbols (List.length common_symbols)
         None None None in
    if Pd.any (Pd.mask (fun x => x <=? Num.zero) (residual_vars self)) then
      raise (ValueError "Non-positive residual variance")
    else if market_var self <=? Num.zero then
      raise (ValueError "Market variance must be positive")
    else ret self.

Definition calculate_C0 (self : t) : M (num * t) :=
  let excess_returns :=
    Pd.sub_scalar (expected_returns self) (risk_free_rate self) in
  let S :=
    Pd.sum (Pd.zip_with Num.div
              (Pd.zip_with Num.mul excess_returns (betas self))
              (residual_vars self)) in
  let B :=
    Pd.sum (Pd.zip_with Num.div
              (Pd.map_values (fun b => b * b) (betas self))
              (residual_vars self)) in
  let denominator := Num.one + market_var self * B in
  if denominator ==? Num.zero then
    raise (ValueError "Denominator is zero in C0 calculation")
  else
    let c := (market_var self * S) / denominator in
    ret (c, set_C0 self c).

Definition calculate_Z_values (self : t) : M (Series * t) :=
  '(c, self) <- match C0 self with
                | None => calculate_C0 self
                | Some c => ret (c, self)
                end ;;
  let excess_returns :=
    Pd.sub_scalar (expected_returns self) (risk_free_rate self) in
  let Z :=
    Pd.zip_with Num.sub
      (Pd.zip_with Num.div excess_returns (residual_vars self))
      (Pd.mul_scalar
         (Pd.zip_with Num.div (betas self) (residual_vars self)) c) in
  ret (Z, set_Z_values self Z).

(** the keyword arguments of [optimize] *)
Record params : Type := mk_params {
  allow_short : bool;
  max_weight : option num;
  min_weight : option num
}.

Definition and_mask (a b : list bool) : list bool :=
  map (fun p => andb (fst p) (snd p)) (combine a b).

(** "Apply max constraint": the new weights and whether they changed *)
Definition max_step (mw : num) (w : Series) : Series * bool :=
  let over_max := Pd.mask (fun x => x >? mw) w in
  if Pd.any over_max then
    let excess := Pd.sum (Pd.sub_scalar (Pd.select over_max w) mw) in
    let w1 := Pd.update over_max (fun _ => mw) w in
    let free_stocks :=
      and_mask (map negb over_max) (Pd.mask (fun x => x <? mw) w1) in
    let w2 :=
      if Pd.any free_stocks then
        let s := Pd.sum (Pd.select free_stocks w1) in
        Pd.update free_stocks (fun x => x + excess * (x / s)) w1
      else w1 in
    (w2, true)
  else (w, false).

(** "Apply min constraint" *)
Definition min_step (mn : num) (w : Series) : Series * bool :=
  let under_min :=
    and_mask (Pd.mask (fun x => x >? Num.zero) w)
             (Pd.mask (fun x => x <? mn) w) in
  if Pd.any under_min then
    let deficit :=
      Pd.sum (Pd.map_values (fun x => mn - x) (Pd.select under_min w)) in
    let w1 := Pd.update under_min (fun _ => mn) w in
    let free_stocks :=
      and_mask (map negb under_min) (Pd.mask (fun x => x >? mn) w1) in
    let w2 :=
      if Pd.any free_stocks then
        let s := Pd.sum (Pd.select free_stocks w1) in
        Pd.update free_stocks (fun x => x - deficit * (x / s)) w1
      else w1 in
    (w2, true)
  else (w, false).

(** one pass of the [for iteration in range(max_iterations)] body *)
Definition pass (mx mn : option num) (short : bool) (w : Series)
  : Series * bool :=
  let '(w1, m1) :=
    match mx with
    | Some mw => max_step mw w
    | None => (w, false)
    end in
  let '(w2, m2) :=
    match mn with
    | Some m => if negb short then min_step m w1 else (w1, false)
    | None => (w1, false)
    end in
  (w2, m1 || m2).

Definition max_iterations : nat := 100.

(** The loop, with the number of passes it ran as a ghost result:
    a pass that modifies nothing ends it ([break]). *)
Fixpoint constraint_loop (fuel : nat) (mx mn : option num) (short : bool)
    (w : Series) : Series * nat :=
  match fuel with
  | O => (w, O)
  | S k =>
      let '(w', modified) := pass mx mn short w in
      if modified then
        let '(r, n) := constraint_loop k mx mn short w' in (r, S n)
      else (w', 1%nat)
  end.

Definition _apply_weight_constraints (w : Series) (mx mn : option num)
    (short : bool) : Series :=
  fst (constraint_loop max_iterations mx mn short w).

Definition has_bounds (p : params) : bool :=
  match max_weight p, min_weight p with
  | None, None => false
  | _, _ => true
  end.

(** the Z values after "Apply constraints" *)
Definition clipped (p : params) (Z : Series) : Series :=
  if allow_short p then Z else Pd.clip_lower Num.zero Z.

(** [w_i = Z_i / sum |Z_j|] *)
Definition raw_weights (Z : Series) : Series :=
  Pd.div_scalar Z (Pd.sum (Pd.abs Z)).

(** the weights entering the final normalization *)
Definition projected (p : params) (Z : Series) : Series :=
  let w := raw_weights Z in
  if has_bounds p then
    _apply_weight_constraints w (max_weight p) (min_weight p)
                              (allow_short p)
  else w.

Definition final_normalization (w : Series) : Series :=
  Pd.div_scalar w (Pd.sum (Pd.abs w)).

Definition optimize (self : t) (p : params) : M (Series * t) :=
  '(Z, self) <- calculate_Z_values self ;;
  let Z := clipped p Z in
  if Pd.sum (Pd.abs Z) ==? Num.zero then
    warn W_all_Z_zero ;;;
    c <- py_div Num.one (Num.of_nat (n_stocks self)) ;;
    let w := Pd.const c (symbols self) in
    ret (w, set_weights self w)
  else
    let w := final_normalization (projected p Z) in
    ret (w, set_weights self w).

End EGPOptimizer.

(* ================================================================= *)
(** ** DataFrames and date-indexed series *)

(** A [pd.Series] indexed by dates (the index returns). *)
Definition DSeries := list (date * num).

(** A [pd.DataFrame] with one column per symbol and one row per date. *)
Record DataFrame : Type := mk_df {
  columns : list string;
  rows : list (date * list num)
}.

Module Df.

Definition index (df : DataFrame) : list date := map fst (rows df).

Definition mem_date (d : date) (l : list date) : bool :=
  existsb (Z.eqb d) l.

Fixpoint unique_from (seen l : list date) : list date :=
  match l with
  | [] => []
  | d :: l' =>
      if mem_date d seen then unique_from seen l'
      else d :: unique_from (d :: seen) l'
  end.

(** [a.intersection(b)] of two date indexes *)
Definition intersection (a b : list date) : list date :=
  unique_from [] (filter (fun d => mem_date d b) a).

Fixpoint lookup {A} (d : date) (l : list (date * A)) : option A :=
  match l with
  | [] => None
  | (d', x) :: l' => if Z.eqb d d' then Some x else lookup d l'
  end.

(** [.loc[dates]] for dates of the index *)
Fixpoint loc {A} (dates : list date) (l : list (date * A))
  : list (date * A) :=
  match dates with
  | [] => []
  | d :: ds =>
      match lookup d l with
      | Some x => (d, x) :: loc ds l
      | None => loc ds l
      end
  end.

(** [.loc[:d]] on an index in increasing order: the rows up to [d] *)
Definition loc_upto {A} (d : date) (l : list (date * A))
  : list (date * A) :=
  filter (fun r => Z.leb (fst r) d) l.

(** [.tail(n)] *)
Definition tail {A} (n : nat) (l : list A) : list A :=
  skipn (List.length l - n) l.

Fixpoint position (k : string) (l : list string) : option nat :=
  match l with
  | [] => None
  | k' :: l' =>
      if String.eqb k k' then Some O
      else option_map S (position k l')
  end.

(** [df[symbol].values] *)
Definition column (df : DataFrame) (symbol : string) : list num :=
  match position symbol (columns df) with
  | Some j => map (fun r => nth j (snd r) NaN) (rows df)
  | None => []
  end.

(** [df.loc[d]]: the row of date [d] as a Series over the columns *)
Definition row (df : DataFrame) (d : date) : M Series :=
  match lookup d (rows df) with
  | Some r => ret (combine (columns df) r)
  | None => raise (KeyError d)
  end.

(** keep the entries selected by a mask *)
Fixpoint select {A} (m : list bool) (l : list A) : list A :=
  match m, l with
  | b :: m', x :: l' => if b then x :: select m' l' else select m' l'
  | _, _ => []
  end.

End Df.

(** numpy reductions on arrays: nan is not skipped *)
Module Np.

Open Scope num_scope.

Definition sum (l : list num) : num := fold_left Num.add l Num.zero.

Definition mean (l : list num) : num :=
  sum l / Num.of_nat (List.length l).

End Np.

(* ================================================================= *)
(** ** [SingleIndexModel] (src/models/single_index_model.py) *)

Module SingleIndexModel.

Open Scope num_scope.

Record Params : Type := mk_params {
  alpha : num;
  beta : num;
  residual_var : num;
  r_squared : num;
  std_error_beta : num;
  t_stat_beta : num;
  p_value_beta : num;
  n_observations : nat
}.

Record t : Type := mk {
  stock_returns : DataFrame;
  market_returns : DSeries;
  symbols : list string;
  results : list (string * Params);
  market_var : option num;
  market_mean : option num
}.

(** [d[k] = v] on a dict: the value is replaced in place, a new key is
    added last *)
Fixpoint dict_set {A} (k : string) (v : A) (d : list (string * A))
  : list (string * A) :=
  match d with
  | [] => [(k, v)]
  | (k', v') :: d' =>
      if String.eqb k k' then (k, v) :: d'
      else (k', v') :: dict_set k v d'
  end.

Fixpoint dict_get {A} (k : string) (d : list (string * A)) : option A :=
  match d with
  | [] => None
  | (k', v) :: d' => if String.eqb k k' then Some v else dict_get k d'
  end.

(** [__init__]; the [isinstance] tests are discharged by the types. *)
Definition init (stock_returns0 : DataFrame) (market_returns0 : DSeries)
  : M t :=
  let common_dates :=
    Df.intersection (Df.index stock_returns0) (map fst market_returns0) in
  (if Nat.ltb (List.length common_dates) 30
   then warn (W_few_common_dates (List.length common_dates))
   else ret tt) ;;;
  let sr := Df.loc common_dates (rows stock_returns0) in
  let mr := Df.loc common_dates market_returns0 in
  let valid_idx := map (fun r => negb (Num.isnan (snd r))) mr in
  let sr := Df.select valid_idx sr in
  let mr := Df.select valid_idx mr in
  ret (mk (mk_df (columns stock_returns0) sr) mr
          (columns stock_returns0) [] None None).

(** [Series.mean()] and [Series.var()] (ddof = 1), skipping nan *)
Definition notna (l : list num) : list num :=
  filter (fun x => negb (Num.isnan x)) l.

Definition series_mean (l : list num) : num :=
  Np.sum (notna l) / Num.of_nat (List.length (notna l)).

Definition series_var (l : list num) : num :=
  let v := notna l in
  let count := List.length v in
  if Nat.leb count 1 then NaN
  else
    let avg := Np.sum v / Num.of_nat count in
    Np.sum (map (fun x => (avg - x) * (avg - x)) v)
    / Num.of_nat (count - 1).

Section Fit.

(** [scipy.stats.linregress x y]: slope, intercept, r, p and the
    standard error, or the exception it raises; and [numpy.sqrt].
    Both are library functions. *)
Variable linregress :
  list num -> list num -> result (num * num * num * num * num).
Variable np_sqrt : num -> num.

(** the pairs of [y], [x] that survive
    [mask = ~(np.isnan(y) | np.isnan(x))] *)
Definition nan_mask (y x : list num) : list bool :=
  map (fun p => negb (Num.isnan (fst p) || Num.isnan (snd p)))
      (combine y x).

(** the body of the loop for one symbol *)
Definition fit_symbol (self : t) (symbol : string) : M t :=
  let y := Df.column (stock_returns self) symbol in
  let x := map snd (market_returns self) in
  let mask := nan_mask y x in
  let y := Df.select mask y in
  let x := Df.select mask x in
  if Nat.ltb (List.length y) 10 then
    warn (W_skipping symbol (List.length y)) ;;;
    ret self
  else
    match linregress x y with
    | Raise e => raise e
    | Ok (slope, intercept, r_value, p_value, std_err) =>
        let y_pred := map (fun xi => intercept + slope * xi) x in
        let residuals :=
          map (fun p => fst p - snd p) (combine y y_pred) in
        let n := List.length y in
        let residual_var :=
          Np.sum (map (fun r => r * r) residuals)
          / Num.of_Z (Z.of_nat n - 2) in
        let x_mean := Np.mean x in
        let sum_sq_x :=
          Np.sum (map (fun xi => (xi - x_mean) * (xi - x_mean)) x) in
        let std_error_beta := np_sqrt (residual_var / sum_sq_x) in
        let t_stat_beta :=
          if std_error_beta >? Num.zero then slope / std_error_beta
          else Num.zero in
        ret (mk (stock_returns self) (market_returns self)
                (symbols self)
                (dict_set symbol
                   (mk_params intercept slope residual_var
                      (r_value * r_value) std_error_beta t_stat_beta
                      p_value n)
                   (results self))
                (market_var self) (market_mean self))
    end.

Fixpoint fit_loop (syms : list string) (self : t) : M t :=
  match syms with
  | [] => ret self
  | symbol :: rest =>
      self' <- fit_symbol self symbol ;;
      fit_loop rest self'
  end.

Definition fit (self : t) : M t :=
  let mr := map snd (market_returns self) in
  let self :=
    mk (stock_returns self) (market_returns self) (symbols self)
       (results self) (Some (series_var mr)) (Some (series_mean mr)) in
  fit_loop (symbols self) self.

End Fit.

Definition no_results : exn :=
  ValueError "No results available. Run fit() first.".

Definition get_all_betas (self : t) : M Series :=
  match results self with
  | [] => raise no_results
  | _ => ret (map (fun sp => (fst sp, beta (snd sp))) (results self))
  end.

Definition get_all_alphas (self : t) : M Series :=
  match results self with
  | [] => raise no_results
  | _ => ret (map (fun sp => (fst sp, alpha (snd sp))) (results self))
  end.

Definition get_all_residual_vars (self : t) : M Series :=
  match results self with
  | [] => raise no_results
  | _ =>
      ret (map (fun sp => (fst sp, residual_var (snd sp))) (results self))
  end.

(** [risk_free_rate] is an argument the body never reads. *)
Definition get_expected_returns (self : t) (risk_free_rate : num)
  : M Series :=
  match results self with
  | [] => raise no_results
  | _ =>
      match market_mean self with
      | None => raise (TypeError "unsupported operand type: NoneType")
      | Some market_premium =>
          ret (map (fun sp =>
                      (fst sp,
                       alpha (snd sp) + beta (snd sp) * market_premium))
                   (results self))
      end
  end.

End SingleIndexModel.

(* ================================================================= *)
(** ** [Portfolio] (src/models/portfolio.py) *)

(** [int(x)] on a float: truncation toward zero; nan and the infinities
    raise. *)
Definition Qtrunc (x : Q) : Z := Z.quot (Qnum x) (Zpos (Qden x)).

Definition py_int (x : num) : M Z :=
  match x with
  | Fin v => ret (Qtrunc v)
  | NaN => raise (ValueError "cannot convert float NaN to integer")
  | _ => raise (OverflowError "cannot convert float infinity to integer")
  end.

Module Portfolio.

Open Scope num_scope.

Record Trade : Type := mk_trade {
  quantity : Z;
  price : num;
  value : num;
  cost : num
}.

Record State : Type := mk_state {
  st_date : date;
  st_value : num;
  st_cash : num;
  st_returns : num;
  st_holdings : list (string * Z)
}.

Record t : Type := mk {
  initial_capital : num;
  transaction_cost : num;
  cash : num;
  holdings : list (string * Z);
  weights : Series;
  history : list State;
  rebalance_dates : list date
}.

(** the dict returned by [rebalance] *)
Record Info : Type := mk_info {
  info_date : date;
  trades : list (string * Trade);
  total_cost : num;
  portfolio_value : num;
  n_trades : nat
}.

Definition init (initial_capital0 transaction_cost0 : num) : t :=
  mk initial_capital0 transaction_cost0 initial_capital0 [] [] [] [].

(** [holdings.get(symbol, 0)] *)
Definition get_qty (symbol : string) (h : list (string * Z)) : Z :=
  match SingleIndexModel.dict_get symbol h with
  | Some z => z
  | None => 0%Z
  end.

(** [symbol in prices.index and not pd.isna(prices[symbol])] *)
Definition valid_price (prices : Series) (symbol : string) : option num :=
  match Pd.lookup symbol prices with
  | Some p => if Num.isnan p then None else Some p
  | None => None
  end.

Definition holdings_value (h : list (string * Z)) (prices : Series) : num :=
  fold_left
    (fun acc sq =>
       match valid_price prices (fst sq) with
       | Some p => acc + Num.of_Z (snd sq) * p
       | None => acc
       end)
    h Num.zero.

Definition get_portfolio_value (self : t) (prices : Series) : num :=
  cash self + holdings_value (holdings self) prices.

(** "Calculate target quantities" *)
Fixpoint target_quantities (target_weights : Series) (prices : Series)
    (portfolio_value0 : num) (acc : list (string * Z))
  : M (list (string * Z)) :=
  match target_weights with
  | [] => ret acc
  | (symbol, w) :: rest =>
      match valid_price prices symbol with
      | None => target_quantities rest prices portfolio_value0 acc
      | Some p =>
          let target_value := w * portfolio_value0 in
          qty <- py_int (target_value / p) ;;
          target_quantities rest prices portfolio_value0
            (SingleIndexModel.dict_set symbol qty acc)
      end
  end.

(** the price read by [prices[symbol]] in the trading loop *)
Definition price_of (prices : Series) (symbol : string) : num :=
  match Pd.lookup symbol prices with
  | Some p => p
  | None => NaN
  end.

Definition Zabs_num (z : Z) : num := Num.of_Z (Z.abs z).

(** "Calculate trades needed": the trades, the total cost and the
    holdings after each symbol of [target_quantities] *)
Fixpoint trade_loop (tq : list (string * Z)) (prices : Series)
    (rate : num) (trades0 : list (string * Trade)) (total_cost0 : num)
    (h : list (string * Z))
  : list (string * Trade) * num * list (string * Z) :=
  match tq with
  | [] => (trades0, total_cost0, h)
  | (symbol, target_qty) :: rest =>
      let current_qty := get_qty symbol h in
      let trade_qty := (target_qty - current_qty)%Z in
      if Z.eqb trade_qty 0 then
        trade_loop rest prices rate trades0 total_cost0 h
      else
        let p := price_of prices symbol in
        let trade_value := Zabs_num trade_qty * p in
        let c := trade_value * rate in
        let tr := mk_trade trade_qty p (Num.of_Z trade_qty * p) c in
        trade_loop rest prices rate
          (SingleIndexModel.dict_set symbol tr trades0)
          (total_cost0 + c)
          (SingleIndexModel.dict_set symbol target_qty h)
  end.

(** Python's [sum] of a generator *)
Definition py_sum (l : list num) : num := fold_left Num.add l Num.zero.

Definition rebalance (self : t) (d : date) (target_weights prices : Series)
  : M (Info * t) :=
  let pv := get_portfolio_value self prices in
  tq <- target_quantities target_weights prices pv [] ;;
  let '(trades1, total_cost1, h1) :=
    trade_loop tq prices (transaction_cost self) [] Num.zero
               (holdings self) in
  let cash_flow := py_sum (map (fun st => value (snd st)) trades1) in
  let cash1 := cash self - (cash_flow + total_cost1) in
  ret (mk_info d trades1 total_cost1 pv (List.length trades1),
       mk (initial_capital self) (transaction_cost self) cash1 h1
          target_weights (history self) (rebalance_dates self ++ [d])).

Definition get_returns (self : t) (current_value : num) : num :=
  (current_value - initial_capital self) / initial_capital self.

Definition record_state (self : t) (d : date) (prices : Series) : t :=
  let v := get_portfolio_value self prices in
  let r := get_returns self v in
  mk (initial_capital self) (transaction_cost self) (cash self)
     (holdings self) (weights self)
     (history self ++ [mk_state d v (cash self) r (holdings self)])
     (rebalance_dates self).

End Portfolio.

(* ================================================================= *)
(** ** [Backtester] (src/analysis/backtesting.py) *)

Module Backtester.

Open Scope num_scope.

Record t : Type := mk {
  stock_returns : DataFrame;
  index_returns : DSeries;
  stock_prices : DataFrame;
  initial_capital : num;
  rebalance_frequency : string;
  transaction_cost : num;
  risk_free_rate : num
}.

(** [__init__]: the annual risk-free rate becomes a period rate
    according to [data['frequency']]. *)
Definition init (stock_returns0 : DataFrame) (index_returns0 : DSeries)
    (stock_prices0 : DataFrame) (frequency : string)
    (initial_capital0 : num) (rebalance_frequency0 : string)
    (transaction_cost0 risk_free_rate0 : num) : t :=
  let periods :=
    if String.eqb frequency "D" then 252%Z
    else if String.eqb frequency "W" then 52%Z
    else if String.eqb frequency "M" then 12%Z
    else 252%Z in
  mk stock_returns0 index_returns0 stock_prices0 initial_capital0
     rebalance_frequency0 transaction_cost0
     (risk_free_rate0 / Num.of_Z periods).

Definition default_params : EGPOptimizer.params :=
  EGPOptimizer.mk_params false (Some (Fin (3 # 10))) None.

(** [pd.Series(1.0/n, index=self.stock_returns.columns)] *)
Definition equal_weights (self : t) : M Series :=
  let cols := columns (stock_returns self) in
  c <- py_div Num.one (Num.of_nat (List.length cols)) ;;
  ret (Pd.const c cols).

Section Optimize.

Variable linregress :
  list num -> list num -> result (num * num * num * num * num).
Variable np_sqrt : num -> num.

(** the body of the [try] block *)
Definition optimize_with_egp (self : t) (sim : SingleIndexModel.t)
    (p : EGPOptimizer.params) : M Series :=
  er <- SingleIndexModel.get_expected_returns sim Num.zero ;;
  bs <- SingleIndexModel.get_all_betas sim ;;
  rv <- SingleIndexModel.get_all_residual_vars sim ;;
  mv <- match SingleIndexModel.market_var sim with
        | Some v => ret v
        | None => raise (TypeError "'<=' not supported for NoneType")
        end ;;
  egp <- EGPOptimizer.init er bs rv mv (risk_free_rate self) ;;
  '(w, _) <- EGPOptimizer.optimize egp p ;;
  ret w.

Definition _optimize_portfolio_at_date (self : t) (d : date)
    (lookback_periods : nat)
    (optimizer_params : option EGPOptimizer.params) : M Series :=
  let p := match optimizer_params with
           | None => default_params
           | Some p => p
           end in
  let historical_returns :=
    Df.tail lookback_periods (Df.loc_upto d (rows (stock_returns self))) in
  let historical_index :=
    Df.tail lookback_periods (Df.loc_upto d (index_returns self)) in
  if Nat.ltb (List.length historical_returns) 30 then
    warn (W_insufficient_data d (List.length historical_returns)) ;;;
    equal_weights self
  else
    sim <- SingleIndexModel.init
             (mk_df (columns (stock_returns self)) historical_returns)
             historical_index ;;
    sim <- SingleIndexModel.fit linregress np_sqrt sim ;;
    try_except
      (optimize_with_egp self sim p)
      (fun e =>
         warn (W_optimization_failed d e) ;;;
         equal_weights self).

(** the state of the loop of [run] *)
Record Loop : Type := mk_loop {
  portfolio : Portfolio.t;
  rebalance_history : list Portfolio.Info;
  portfolio_values : list num;
  dates_list : list date;
  current_weights : option Series
}.

(** "Rebalance": the prices of the date, the ledger rebalanced to
    [new_weights], the event recorded *)
Definition rebalance_at (self : t) (st : Loop) (d : date)
    (new_weights : Series) : M Loop :=
  prices_at_date <- Df.row (stock_prices self) d ;;
  '(rebal_info, pf) <-
    Portfolio.rebalance (portfolio st) d new_weights prices_at_date ;;
  ret (mk_loop pf (rebalance_history st ++ [rebal_info])
               (portfolio_values st) (dates_list st)
               (Some new_weights)).

(** "Record portfolio state" and "Track value" *)
Definition record_at (self : t) (st : Loop) (d : date) : M Loop :=
  prices_at_date <- Df.row (stock_prices self) d ;;
  let pf := Portfolio.record_state (portfolio st) d prices_at_date in
  let v := Portfolio.get_portfolio_value pf prices_at_date in
  ret (mk_loop pf (rebalance_history st) (portfolio_values st ++ [v])
               (dates_list st ++ [d]) (current_weights st)).

(** one iteration of [for date in self.stock_returns.index] *)
Definition run_step (self : t) (rebalance_dates : list date)
    (lookback_periods : nat)
    (optimizer_params : option EGPOptimizer.params)
    (st : Loop) (d : date) : M Loop :=
  st <- (if Df.mem_date d rebalance_dates then
           new_weights <-
             _optimize_portfolio_at_date self d lookback_periods
                                         optimizer_params ;;
           rebalance_at self st d new_weights
         else ret st) ;;
  record_at self st d.

Fixpoint run_loop (self : t) (rebalance_dates : list date)
    (lookback_periods : nat)
    (optimizer_params : option EGPOptimizer.params)
    (dates : list date) (st : Loop) : M Loop :=
  match dates with
  | [] => ret st
  | d :: rest =>
      st' <- run_step self rebalance_dates lookback_periods
                      optimizer_params st d ;;
      run_loop self rebalance_dates lookback_periods optimizer_params
               rest st'
  end.


End Optimize.

End Backtester.

(* ================================================================= *)
(** ** Library functions used to run the model on data

    [np.sqrt] and [scipy.stats.linregress] are parameters of the model.
    Where a closed example needs them, these stand in: a square root
    rounded down to 52 binary digits, and a regression that gives the
    least-squares slope and intercept and raises, as scipy does, on empty
    input or when all [x] are identical.  The correlation, the p-value and
    the standard error of scipy's result need the t distribution; they are
    nan here, and nothing below reads them. *)

Module Lib.

Open Scope num_scope.

Definition sqrt_digits : Z := 52.

Definition np_sqrt (a : num) : num :=
  match a with
  | Fin x =>
      if Qle_bool 0 x then
        let s := (2 ^ sqrt_digits)%Z in
        Fin (Z.sqrt (Qnum x * Zpos (Qden x) * s * s)
             # (Qden x * Z.to_pos s))
      else NaN
  | PInf => PInf
  | _ => NaN
  end.

Definition all_identical (x : list num) : bool :=
  match x with
  | [] => true
  | x0 :: _ => forallb (fun xi => xi ==? x0) x
  end.

Definition linregress (x y : list num)
  : result (num * num * num * num * num) :=
  if Nat.eqb (List.length x) 0 then
    Raise (ValueError "Inputs must not be empty.")
  else if all_identical x && Nat.ltb 1 (List.length x) then
    Raise (ValueError
      "Cannot calculate a linear regression if all x values are identical")
  else
    let xmean := Np.mean x in
    let ymean := Np.mean y in
    let ssxm := Np.mean (map (fun xi => (xi - xmean) * (xi - xmean)) x) in
    let ssxym :=
      Np.mean (map (fun p => (fst p - xmean) * (snd p - ymean))
                   (combine x y)) in
    let slope := ssxym / ssxm in
    let intercept := ymean - slope * xmean in
    Ok (slope, intercept, NaN, NaN, NaN).

End Lib.

(* ================================================================= *)
(** ** Example data *)

Module Ex.

Open Scope string_scope.

Definition q (n : Z) (d : positive) : num := Fin (n # d).

(** the parameters of [tests/test_egp_optimizer.py] *)
Definition expected_returns : Series :=
  [("STOCK_A", q 3 10000); ("STOCK_B", q 2 10000);
   ("STOCK_C", q 4 10000); ("STOCK_D", q 1 10000)].
Definition betas : Series :=
  [("STOCK_A", q 12 10); ("STOCK_B", q 8 10);
   ("STOCK_C", q 15 10); ("STOCK_D", q 6 10)].
Definition residual_vars : Series :=
  [("STOCK_A", q 1 10000); ("STOCK_B", q 15 100000);
   ("STOCK_C", q 12 100000); ("STOCK_D", q 2 10000)].
Definition market_var : num := q 4 10000.
Definition risk_free_rate : num := q 2 100000.

Definition sample_optimizer : M EGPOptimizer.t :=
  EGPOptimizer.init expected_returns betas residual_vars
                    market_var risk_free_rate.

(** [optimize] on the sample, with canonical fractions *)
Definition sample_weights (p : EGPOptimizer.params) : M Series :=
  egp <- sample_optimizer ;;
  '(w, _) <- EGPOptimizer.optimize egp p ;;
  ret (Pd.map_values Num.canon w).



(** [abs(weights.abs().sum() - 1.0) < 1e-6], the test of the suite *)
Definition sums_to_one (w : Series) : bool :=
  (Num.abs (Pd.sum (Pd.abs w) - Num.one) <? q 1 1000000)%num.

(** ten dates, one asset: market returns i/100, asset returns
    (2i +- 1)/100 *)
Definition market10 : DSeries :=
  map (fun i => (Z.of_nat i, q (Z.of_nat i) 100)) (seq 1 10).

Definition stocks10 : DataFrame :=
  mk_df ["A"]
    (map (fun i =>
            (Z.of_nat i,
             [q (2 * Z.of_nat i + (if Nat.even i then 1 else -1)) 100]))
         (seq 1 10)).

Definition model10 : SingleIndexModel.t :=
  SingleIndexModel.mk stocks10 market10 ["A"] [] None None.


(** the asset of [stocks10] with an infinite return on the third date *)
Definition stocks_inf : DataFrame :=
  mk_df ["A"]
    (map (fun i =>
            (Z.of_nat i,
             [if Nat.eqb i 3 then PInf
              else q (2 * Z.of_nat i + (if Nat.even i then 1 else -1)) 100]))
         (seq 1 10)).

Definition model_inf : SingleIndexModel.t :=
  SingleIndexModel.mk stocks_inf market10 ["A"] [] None None.



Definition prices30 : DataFrame :=
  mk_df ["A"] (map (fun i => (Z.of_nat i, [q 10 1])) (seq 1 30)).


(** the same dates with index returns i/100 and an asset whose returns
    are all nan *)
Definition rising_index : DSeries :=
  map (fun i => (Z.of_nat i, q (Z.of_nat i) 100)) (seq 1 30).

Definition nan_returns30 : DataFrame :=
  mk_df ["A"] (map (fun i => (Z.of_nat i, [NaN])) (seq 1 30)).

Definition nan_backtester : Backtester.t :=
  Backtester.init nan_returns30 rising_index prices30 "D"
                  (q 1000000 1) "M" (q 15 10000) (q 5 100).

(** a new ledger of 1,000,000 at a cost rate of 0.15 %, target weights
    over two assets, and prices where the second asset has none *)
Definition ledger : Portfolio.t :=
  Portfolio.init (q 1000000 1) (q 15 10000).

Definition targets : Series := [("A", q 1 2); ("B", q 1 2)].

Definition quotes : Series := [("A", q 7 1); ("B", NaN)].


(** thirty dates with index returns i/100 and asset returns (2i +- 1)/100 *)
Definition noisy_returns30 : DataFrame :=
  mk_df ["A"]
    (map (fun i =>
            (Z.of_nat i,
             [q (2 * Z.of_nat i + (if Nat.even i then 1 else -1)) 100]))
         (seq 1 30)).

Definition noisy_backtester : Backtester.t :=
  Backtester.init noisy_returns30 rising_index prices30 "D"
                  (q 1000000 1) "M" (q 15 10000) (q 5 100).

(** no weight may exceed 0 *)
Definition zero_cap : EGPOptimizer.params :=
  EGPOptimizer.mk_params false (Some (q 0 1)) None.

End Ex.

(* ================================================================= *)
(** ** Predicates used in the statements *)


(** a finite value >= 0, or plus infinity *)
Definition nonneg (a : num) : Prop :=
  match a with
  | Fin x => 0 <= x
  | PInf => True
  | _ => False
  end.

(** [nonneg], or nan *)
Definition nonneg_or_nan (a : num) : Prop :=
  match a with
  | NaN => True
  | _ => nonneg a
  end.

(** every value of the Series satisfies [P] *)
Definition all_values (P : num -> Prop) (s : Series) : Prop :=
  Forall (fun kv => P (snd kv)) s.

(** the pairs (asset return, market return) of [symbol] that survive
    [mask = ~(np.isnan(y) | np.isnan(x))] *)
Definition kept_pairs (self : SingleIndexModel.t) (symbol : string)
  : list (num * num) :=
  filter (fun p => negb (Num.isnan (fst p) || Num.isnan (snd p)))
         (combine (Df.column (SingleIndexModel.stock_returns self) symbol)
                  (map snd (SingleIndexModel.market_returns self))).

(** the regression of [symbol] ran on its kept pairs and gave [p] *)
Definition regressed
    (linregress : list num -> list num -> result (num * num * num * num * num))
    (self : SingleIndexModel.t) (symbol : string)
    (p : SingleIndexModel.Params) : Prop :=
  SingleIndexModel.n_observations p = List.length (kept_pairs self symbol)
  /\ exists r pv se,
       linregress (map snd (kept_pairs self symbol))
                  (map fst (kept_pairs self symbol))
       = Ok (SingleIndexModel.beta p, SingleIndexModel.alpha p, r, pv, se).


(** [int(w * V / p)] when it is defined *)
Definition target_qty (w V p : num) : option Z :=
  match (w * V / p)%num with
  | Fin x => Some (Qtrunc x)
  | _ => None
  end.








(* ================================================================= *)
(** ** [EGPOptimizer.get_portfolio_statistics] *)

Module Statistics.

Open Scope num_scope.

(** the dict returned by [get_portfolio_statistics] *)
Record t : Type := mk {
  portfolio_return : num;
  portfolio_variance : num;
  portfolio_std : num;
  portfolio_beta : num;
  sharpe_ratio : num;
  n_stocks : nat;
  C0 : option num
}.

Definition not_optimized : exn :=
  ValueError "Weights not calculated. Run optimize() first.".

(** [(self.weights.abs() > 1e-6).sum()] *)
Definition count_invested (w : Series) : nat :=
  List.length
    (filter (fun x => Num.abs x >? Fin (1 # 1000000)) (Pd.values w)).

Section Sqrt.

Variable np_sqrt : num -> num.

Definition get_portfolio_statistics (self : EGPOptimizer.t) : M t :=
  match EGPOptimizer.weights self with
  | None => raise not_optimized
  | Some w =>
      let portfolio_return0 :=
        Pd.sum (Pd.zip_with Num.mul w (EGPOptimizer.expected_returns self)) in
      let portfolio_beta0 :=
        Pd.sum (Pd.zip_with Num.mul w (EGPOptimizer.betas self)) in
      let systematic_var :=
        (portfolio_beta0 * portfolio_beta0) * EGPOptimizer.market_var self in
      let idiosyncratic_var :=
        Pd.sum (Pd.zip_with Num.mul (Pd.map_values (fun x => x * x) w)
                            (EGPOptimizer.residual_vars self)) in
      let portfolio_variance0 := systematic_var + idiosyncratic_var in
      let portfolio_std0 := np_sqrt portfolio_variance0 in
      let excess_return :=
        portfolio_return0 - EGPOptimizer.risk_free_rate self in
      let sharpe_ratio0 :=
        if portfolio_std0 >? Num.zero then excess_return / portfolio_std0
        else Num.zero in
      ret (mk portfolio_return0 portfolio_variance0 portfolio_std0
              portfolio_beta0 sharpe_ratio0 (count_invested w)
              (EGPOptimizer.C0 self))
  end.

End Sqrt.

End Statistics.

(* ================================================================= *)
(** ** [SingleIndexModel]: the other queries *)

Module Queries.

Open Scope num_scope.

Definition get_parameters (self : SingleIndexModel.t) (symbol : string)
  : M SingleIndexModel.Params :=
  match SingleIndexModel.dict_get symbol (SingleIndexModel.results self) with
  | None => raise (ValueError "Symbol not found in results. Run fit() first.")
  | Some p => ret p
  end.

Definition get_total_variance (self : SingleIndexModel.t) : M Series :=
  match SingleIndexModel.results self with
  | [] => raise SingleIndexModel.no_results
  | _ =>
      match SingleIndexModel.market_var self with
      | None =>
          raise (ValueError
                   "Market variance not calculated. Run fit() first.")
      | Some mv =>
          ret (map (fun sp =>
                      (fst sp,
                       (SingleIndexModel.beta (snd sp)
                        * SingleIndexModel.beta (snd sp)) * mv
                       + SingleIndexModel.residual_var (snd sp)))
                   (SingleIndexModel.results self))
      end
  end.

End Queries.




(** every stored residual variance is >= 0, +inf or nan *)
Definition nonneg_variances (d : list (string * SingleIndexModel.Params))
  : Prop :=
  Forall (fun sp => nonneg_or_nan (SingleIndexModel.residual_var (snd sp))) d.


(** the named intermediate values of "Apply max constraint" *)
Definition over_max (mw : num) (w : Series) : list bool :=
  Pd.mask (fun x => (x >? mw)%num) w.

Definition capped (mw : num) (w : Series) : Series :=
  Pd.update (over_max mw w) (fun _ => mw) w.

Definition free_stocks (mw : num) (w : Series) : list bool :=
  EGPOptimizer.and_mask (map negb (over_max mw w))
                        (Pd.mask (fun x => (x <? mw)%num) (capped mw w)).





(** the named intermediate values of "Apply min constraint" *)
Definition under_min (mn : num) (w : Series) : list bool :=
  EGPOptimizer.and_mask (Pd.mask (fun x => (x >? Num.zero)%num) w)
                        (Pd.mask (fun x => (x <? mn)%num) w).




(* ================================================================= *)
(** * Properties *)

(** ** The monad *)

Lemma bind_ok_inv {A B} (m : M A) (f : A -> M B) ws b :
  bind m f = (ws, Ok b) ->
  exists ws1 a ws2, m = (ws1, Ok a) /\ f a = (ws2, Ok b) /\ ws = ws1 ++ ws2.
Proof.
  unfold bind. destruct m as [ws1 [a | e]]; [| discriminate].
  destruct (f a) as [ws2 r] eqn:E. intros H. inversion H; subst.
  exists ws1, a, ws2. auto.
Qed.

Lemma bind_ok {A B} (m : M A) (f : A -> M B) ws1 a :
  m = (ws1, Ok a) ->
  bind m f = (ws1 ++ fst (f a), snd (f a)).
Proof.
  intros ->. unfold bind. destruct (f a); reflexivity.
Qed.

Lemma bind_raise {A B} (m : M A) (f : A -> M B) ws1 e :
  m = (ws1, Raise e) -> bind m f = (ws1, Raise e).
Proof. intros ->. reflexivity. Qed.

Lemma bind_ret_l {A B} (a : A) (f : A -> M B) : bind (ret a) f = f a.
Proof. unfold bind, ret. destruct (f a). reflexivity. Qed.

Lemma bind_pure {A B} (a : A) (f : A -> M B) : bind ([], Ok a) f = f a.
Proof. exact (bind_ret_l a f). Qed.

(** ** [SingleIndexModel] *)

Section FitFacts.

Variable linregress :
  list num -> list num -> result (num * num * num * num * num).
Variable np_sqrt : num -> num.

Import SingleIndexModel.

Lemma fit_symbol_market self symbol ws self' :
  fit_symbol linregress np_sqrt self symbol = (ws, Ok self') ->
  market_mean self' = market_mean self /\
  market_var self' = market_var self /\
  market_returns self' = market_returns self /\
  stock_returns self' = stock_returns self.
Proof.
  unfold fit_symbol.
  destruct (Nat.ltb _ 10).
  - cbn. intros H. inversion H; subst. auto.
  - destruct (linregress _ _) as [[[[[sl ic] r] p] se] | e]; cbn.
    + intros H. inversion H; subst. cbn. auto.
    + discriminate.
Qed.

Lemma fit_loop_market syms : forall self ws self',
  fit_loop linregress np_sqrt syms self = (ws, Ok self') ->
  market_mean self' = market_mean self /\
  market_var self' = market_var self /\
  market_returns self' = market_returns self /\
  stock_returns self' = stock_returns self.
Proof.
  induction syms as [| s syms IH]; intros self ws self' H.
  - cbn in H. inversion H; subst. auto.
  - cbn [fit_loop] in H.
    apply bind_ok_inv in H. destruct H as (ws1 & a & ws2 & H1 & H2 & _).
    apply fit_symbol_market in H1. apply IH in H2.
    intuition congruence.
Qed.

Lemma fit_market self ws fitted :
  fit linregress np_sqrt self = (ws, Ok fitted) ->
  market_mean fitted = Some (series_mean (map snd (market_returns self))) /\
  market_var fitted = Some (series_var (map snd (market_returns self))) /\
  market_returns fitted = market_returns self.
Proof.
  unfold fit. intros H. apply fit_loop_market in H. cbn in H.
  intuition.
Qed.

End FitFacts.

(** C10.  On a fitted model, [get_expected_returns] gives the same result
    for any two values of [risk_free_rate]: it raises when no asset was
    fitted, and otherwise returns, for each fitted asset,
    alpha + beta * mean(market returns). *)
Theorem get_expected_returns_ignores_risk_free_rate :
  forall linregress np_sqrt self ws fitted r1 r2,
    SingleIndexModel.fit linregress np_sqrt self = (ws, Ok fitted) ->
    SingleIndexModel.get_expected_returns fitted r1
    = SingleIndexModel.get_expected_returns fitted r2
    /\ SingleIndexModel.get_expected_returns fitted r1
       = match SingleIndexModel.results fitted with
         | [] => raise SingleIndexModel.no_results
         | _ =>
             ret (map
                    (fun sp =>
                       (fst sp,
                        (SingleIndexModel.alpha (snd sp)
                         + SingleIndexModel.beta (snd sp)
                           * SingleIndexModel.series_mean
                               (map snd
                                  (SingleIndexModel.market_returns self)))%num))
                    (SingleIndexModel.results fitted))
         end.
Proof.
  intros lr sq self ws fitted r1 r2 H.
  split; [reflexivity |].
  apply fit_market in H. destruct H as (Hm & _ & _).
  unfold SingleIndexModel.get_expected_returns.
  rewrite Hm. reflexivity.
Qed.

(** ** pandas helpers *)

Lemma mem_In k l : Pd.mem k l = true <-> In k l.
Proof.
  unfold Pd.mem. rewrite existsb_exists. split.
  - intros (x & Hx & E). apply String.eqb_eq in E. subst. exact Hx.
  - intros H. exists k. split; [exact H | apply String.eqb_refl].
Qed.






Lemma any_mask p (s : Series) :
  Pd.any (Pd.mask p s) = true <-> exists k x, In (k, x) s /\ p x = true.
Proof.
  unfold Pd.any, Pd.mask. rewrite existsb_exists. split.
  - intros (b & Hb & E). subst. apply in_map_iff in Hb.
    destruct Hb as ([k x] & E & Hin). exists k, x. cbn in E. auto.
  - intros (k & x & Hin & E). exists true. split; [| reflexivity].
    apply in_map_iff. exists (k, x). auto.
Qed.

(** ** [EGPOptimizer]: construction *)


(** ** Arithmetic on [num] *)

(** forget the reduction of fractions *)
Ltac unred :=
  repeat match goal with
         | |- context [Qred ?x] => rewrite (Qred_correct x)
         | H : context [Qred ?x] |- _ => rewrite (Qred_correct x) in H
         end.

Lemma Fin_inj a b : Fin a = Fin b -> a = b.
Proof. intros H. congruence. Qed.

Lemma Qle_bool_false x y : Qle_bool x y = false <-> y < x.
Proof.
  split; intros H.
  - apply Qnot_le_lt. intros Hle. apply Qle_bool_iff in Hle. congruence.
  - destruct (Qle_bool x y) eqn:E; [| reflexivity].
    apply Qle_bool_iff in E. apply Qlt_not_le in H. contradiction.
Qed.

Lemma Qeq_bool_false x y : Qeq_bool x y = false <-> ~ x == y.
Proof.
  split; intros H.
  - apply Qeq_bool_neq. exact H.
  - destruct (Qeq_bool x y) eqn:E; [| reflexivity].
    apply Qeq_bool_iff in E. contradiction.
Qed.

Lemma Qsgn_pos x : 0 < x -> Num.Qsgn x = 1%Z.
Proof.
  destruct x as [n d]. unfold Qlt, Num.Qsgn. cbn. intros H.
  assert (0 < n)%Z by lia. destruct n; cbn; lia.
Qed.

Lemma Qsgn_neg x : x < 0 -> Num.Qsgn x = (-1)%Z.
Proof.
  destruct x as [n d]. unfold Qlt, Num.Qsgn. cbn. intros H.
  assert (n < 0)%Z by lia. destruct n; cbn; lia.
Qed.

Lemma Qsgn_zero x : x == 0 -> Num.Qsgn x = 0%Z.
Proof.
  destruct x as [n d]. unfold Qeq, Num.Qsgn. cbn. intros H.
  assert (n = 0)%Z by lia. subst. reflexivity.
Qed.

(** a value that is not [<= 0]: positive, plus infinity, or nan *)
Lemma leb_zero_false a :
  (a <=? Num.zero)%num = false ->
  match a with
  | Fin x => 0 < x
  | NInf => False
  | _ => True
  end.
Proof.
  destruct a; cbn; auto; try discriminate.
  apply Qle_bool_false.
Qed.

Lemma square_nonneg b : nonneg_or_nan (b * b)%num.
Proof.
  destruct b as [x | | |]; cbn -[Qred]; auto.
  unred. nra.
Qed.

Lemma div_nonneg a r :
  nonneg_or_nan a -> (r <=? Num.zero)%num = false ->
  nonneg_or_nan (a / r)%num.
Proof.
  intros Ha Hr. apply leb_zero_false in Hr.
  destruct a as [x | | |], r as [y | | |]; cbn -[Qred] in *;
    auto; try contradiction.
  - destruct (Qeq_bool y 0) eqn:E.
    + apply Qeq_bool_iff in E. lra.
    + cbn -[Qred]. unred. apply Qle_shift_div_l; lra.
  - lra.
  - destruct (Qeq_bool y 0) eqn:E; cbn; auto.
    rewrite (Qsgn_pos Hr). cbn. exact I.
Qed.

Lemma nansum_nonneg l :
  Forall nonneg_or_nan l -> nonneg (Pd.nansum l).
Proof.
  induction 1 as [| a l Ha _ IH]; cbn -[Qred].
  - lra.
  - destruct a as [x | | |]; cbn -[Qred] in *; auto; try contradiction.
    + destruct (Pd.nansum l); cbn -[Qred] in *; auto. unred. lra.
    + destruct (Pd.nansum l); cbn in *; auto.
Qed.

Lemma mul_pos_nonneg m b :
  (m <=? Num.zero)%num = false -> nonneg b -> nonneg_or_nan (m * b)%num.
Proof.
  intros Hm Hb. apply leb_zero_false in Hm.
  destruct m as [x | | |], b as [y | | |]; cbn -[Qred] in *;
    auto; try contradiction.
  - unred. nra.
  - rewrite (Qsgn_pos Hm). cbn. exact I.
  - destruct (Num.Qsgn y) eqn:E; cbn; auto.
    exfalso. destruct (Qlt_le_dec 0 y) as [Hp | Hn].
    + rewrite (Qsgn_pos Hp) in E. discriminate.
    + assert (y == 0) by lra. rewrite (Qsgn_zero H) in E. discriminate.
Qed.

Lemma one_plus_nonneg_nonzero a :
  nonneg_or_nan a -> (Num.one + a ==? Num.zero)%num = false.
Proof.
  destruct a as [x | | |]; cbn -[Qred]; auto; try contradiction.
  intros H. apply Qeq_bool_false. unred. lra.
Qed.

(** ** [EGPOptimizer]: the ranking *)

Lemma zip_with_values (f : num -> num -> num) (P Q : num -> Prop) :
  (forall x y, P y -> Q (f x y)) ->
  forall a b, all_values P b -> Forall Q (Pd.values (Pd.zip_with f a b)).
Proof.
  intros Hf. induction a as [| [k x] a IH]; intros b Hb; cbn.
  - constructor.
  - destruct b as [| [k' y] b]; cbn; [constructor |].
    inversion Hb; subst. constructor; [apply Hf; assumption | apply IH; assumption].
Qed.

Lemma zip_with_values_l (f : num -> num -> num) (P Q R : num -> Prop) :
  (forall x y, P x -> R y -> Q (f x y)) ->
  forall a b, all_values P a -> all_values R b ->
              Forall Q (Pd.values (Pd.zip_with f a b)).
Proof.
  intros Hf. induction a as [| [k x] a IH]; intros b Ha Hb; cbn.
  - constructor.
  - destruct b as [| [k' y] b]; cbn; [constructor |].
    inversion Ha; inversion Hb; subst.
    constructor; [apply Hf; assumption | apply IH; assumption].
Qed.

Lemma map_values_all (f : num -> num) (P : num -> Prop) s :
  (forall x, P (f x)) -> all_values P (Pd.map_values f s).
Proof.
  intros H. unfold all_values, Pd.map_values.
  apply Forall_map. apply Forall_forall. intros kv _. cbn. apply H.
Qed.

(** the conditions [init] leaves true of the optimizer it returns *)
Lemma init_ok er bs rv mv rf ws self :
  EGPOptimizer.init er bs rv mv rf = (ws, Ok self) ->
  ws = []
  /\ all_values (fun x => (x <=? Num.zero)%num = false)
                (EGPOptimizer.residual_vars self)
  /\ (EGPOptimizer.market_var self <=? Num.zero)%num = false
  /\ EGPOptimizer.C0 self = None
  /\ EGPOptimizer.symbols self <> []
  /\ EGPOptimizer.n_stocks self = List.length (EGPOptimizer.symbols self)
  /\ EGPOptimizer.symbols self = EGPOptimizer.aligned er bs rv.
Proof.
  unfold EGPOptimizer.init.
  destruct (EGPOptimizer.aligned er bs rv) as [| c cs] eqn:Ec;
    [cbn; discriminate |].
  cbn [List.length Nat.eqb EGPOptimizer.residual_vars EGPOptimizer.market_var].
  destruct (Pd.any _) eqn:Eany; [discriminate |].
  destruct (mv <=? Num.zero)%num eqn:Emv; [discriminate |].
  intros H. inversion H; subst. cbn.
  repeat split; auto; try discriminate.
  unfold all_values. apply Forall_forall. intros [k x] Hin. cbn.
  destruct (x <=? Num.zero)%num eqn:E; [| reflexivity].
  assert (Pd.any (Pd.mask (fun x => (x <=? Num.zero)%num)
                          (Pd.loc (c :: cs) rv)) = true).
  { apply any_mask. exists k, x. auto. }
  congruence.
Qed.

(** after a successful construction [calculate_C0] does not raise: the
    denominator is at least 1 *)
Lemma calculate_C0_ok self :
  all_values (fun x => (x <=? Num.zero)%num = false)
             (EGPOptimizer.residual_vars self) ->
  (EGPOptimizer.market_var self <=? Num.zero)%num = false ->
  exists c, EGPOptimizer.calculate_C0 self
            = ([], Ok (c, EGPOptimizer.set_C0 self c)).
Proof.
  intros Hrv Hmv. unfold EGPOptimizer.calculate_C0.
  match goal with
  | |- context [Num.eqb ?d Num.zero] =>
      assert (E : Num.eqb d Num.zero = false)
  end.
  { apply one_plus_nonneg_nonzero.
    apply mul_pos_nonneg; [exact Hmv |].
    apply nansum_nonneg.
    apply zip_with_values_l
      with (P := nonneg_or_nan)
           (R := fun x => (x <=? Num.zero)%num = false).
    - intros x y Hx Hy. apply div_nonneg; assumption.
    - apply map_values_all. apply square_nonneg.
    - exact Hrv. }
  rewrite E. eexists. reflexivity.
Qed.

Lemma calculate_Z_values_ok self :
  all_values (fun x => (x <=? Num.zero)%num = false)
             (EGPOptimizer.residual_vars self) ->
  (EGPOptimizer.market_var self <=? Num.zero)%num = false ->
  EGPOptimizer.C0 self = None ->
  exists Z self1,
    EGPOptimizer.calculate_Z_values self = ([], Ok (Z, self1))
    /\ EGPOptimizer.symbols self1 = EGPOptimizer.symbols self
    /\ EGPOptimizer.n_stocks self1 = EGPOptimizer.n_stocks self.
Proof.
  intros Hrv Hmv HC. unfold EGPOptimizer.calculate_Z_values. rewrite HC.
  destruct (calculate_C0_ok self Hrv Hmv) as [c Hc]. rewrite Hc.
  cbn. eexists. eexists. split; [reflexivity |]. cbn. auto.
Qed.

Lemma of_nat_nonzero n :
  n <> O -> (Num.of_nat n ==? Num.zero)%num = false.
Proof.
  intros H. cbn. apply Qeq_bool_false. unfold Qeq. cbn. lia.
Qed.

(** C6.  For an optimizer returned by the constructor, [optimize] never
    raises.  When the sum of |Z_i| after short-sale clipping is 0 it emits
    the "all Z values are zero" warning and returns the weight 1/N for each
    of the N aligned assets; otherwise it emits no warning and returns the
    final normalization of the projection of the raw weights, where the raw
    weight of asset i is Z_i / sum_j |Z_j| (and the projection is the
    identity when no bound is given). *)
Theorem optimize_degenerate_or_proportional :
  forall er bs rv mv rf ws self p,
    EGPOptimizer.init er bs rv mv rf = (ws, Ok self) ->
    exists Z self1 self2,
      EGPOptimizer.calculate_Z_values self = ([], Ok (Z, self1))
      /\ EGPOptimizer.n_stocks self = List.length (EGPOptimizer.symbols self)
      /\ EGPOptimizer.n_stocks self <> O
      /\ let Zc := EGPOptimizer.clipped p Z in
         let total := Pd.sum (Pd.abs Zc) in
         ((total ==? Num.zero)%num = true ->
          EGPOptimizer.optimize self p
          = ([W_all_Z_zero],
             Ok (Pd.const (Num.one / Num.of_nat (EGPOptimizer.n_stocks self))%num
                          (EGPOptimizer.symbols self),
                 self2)))
         /\ ((total ==? Num.zero)%num = false ->
             EGPOptimizer.optimize self p
             = ([], Ok (EGPOptimizer.final_normalization
                          (EGPOptimizer.projected p Zc), self2))
             /\ EGPOptimizer.raw_weights Zc
                = map (fun kv => (fst kv, (snd kv / total)%num)) Zc
             /\ (EGPOptimizer.has_bounds p = false ->
                 EGPOptimizer.projected p Zc = EGPOptimizer.raw_weights Zc)).
Proof.
  intros er bs rv mv rf ws self p Hinit.
  apply init_ok in Hinit.
  destruct Hinit as (_ & Hrv & Hmv & HC & Hne & Hn & _).
  destruct (calculate_Z_values_ok self Hrv Hmv HC) as (Z & self1 & HZ & Hs & Hn1).
  assert (Hn0 : EGPOptimizer.n_stocks self <> O).
  { rewrite Hn. destruct (EGPOptimizer.symbols self); [congruence | discriminate]. }
  exists Z, self1.
  destruct (Pd.sum (Pd.abs (EGPOptimizer.clipped p Z)) ==? Num.zero)%num eqn:E.
  - eexists. split; [exact HZ |]. split; [exact Hn |]. split; [exact Hn0 |].
    cbn zeta. rewrite E. split; [| discriminate]. intros _.
    unfold EGPOptimizer.optimize. rewrite HZ. cbn [bind fst snd].
    rewrite E. unfold py_div. rewrite Hn1, Hs.
    rewrite (of_nat_nonzero Hn0). cbn. reflexivity.
  - eexists. split; [exact HZ |]. split; [exact Hn |]. split; [exact Hn0 |].
    cbn zeta. rewrite E. split; [discriminate |]. intros _.
    split; [| split].
    + unfold EGPOptimizer.optimize. rewrite HZ. cbn [bind fst snd].
      rewrite E. cbn. reflexivity.
    + reflexivity.
    + intros Hb. unfold EGPOptimizer.projected. rewrite Hb. reflexivity.
Qed.

(** ** [EGPOptimizer]: the constrained projection *)







(** ** Normalization *)

Lemma values_map_values f s : Pd.values (Pd.map_values f s) = map f (Pd.values s).
Proof.
  unfold Pd.values, Pd.map_values. rewrite !map_map. reflexivity.
Qed.

Lemma abs_nonneg_or_nan x : nonneg_or_nan (Num.abs x).
Proof.
  destruct x; cbn; auto. apply Qabs_nonneg.
Qed.

Lemma nansum_abs_nonneg l : nonneg (Pd.nansum (map Num.abs l)).
Proof.
  apply nansum_nonneg. apply Forall_map. apply Forall_forall.
  intros x _. apply abs_nonneg_or_nan.
Qed.

(** when the nan-skipping sum of the |x| is finite, dividing every entry
    by a positive [t] divides that sum by [t] *)
Lemma nansum_abs_div t : 0 < t -> forall l s,
  Pd.nansum (map Num.abs l) = Fin s ->
  exists r, Pd.nansum (map Num.abs (map (fun x => (x / Fin t)%num) l)) = Fin r
            /\ r == s / t.
Proof.
  intros Ht. assert (Et : Qeq_bool t 0 = false) by (apply Qeq_bool_false; lra).
  induction l as [| x l IH]; intros s H; cbn -[Qred] in *.
  - inversion H; subst. exists 0. split; [reflexivity |]. field. lra.
  - pose proof (nansum_abs_nonneg l) as Hnn.
    destruct x as [a | | |]; cbn -[Qred] in *.
    + destruct (Pd.nansum (map Num.abs l)) as [s' | | |] eqn:E;
        cbn -[Qred] in *; try discriminate.
      apply Fin_inj in H. subst s.
      destruct (IH s' eq_refl) as (r & Hr & Er).
      rewrite Et. cbn -[Qred]. rewrite Hr. cbn -[Qred].
      eexists. split; [reflexivity |].
      assert (Ha : Qabs (a / t) == Qabs a / t).
      { unfold Qdiv. rewrite Qabs_Qmult. rewrite (Qabs_pos (/ t)).
        - reflexivity.
        - apply Qlt_le_weak. apply Qinv_lt_0_compat. exact Ht. }
      unred. rewrite Er, Ha. field. lra.
    + destruct (Pd.nansum (map Num.abs l)); cbn in *;
        try discriminate; contradiction.
    + destruct (Pd.nansum (map Num.abs l)); cbn in *;
        try discriminate; contradiction.
    + destruct (IH s H) as (r & Hr & Er). exists r. auto.
Qed.

(** the final normalization gives sum |w| = 1 when the sum of the |w| it
    divides by is finite and not zero *)
Lemma final_normalization_sum w s :
  Pd.sum (Pd.abs w) = Fin s -> ~ s == 0 ->
  (Pd.sum (Pd.abs (EGPOptimizer.final_normalization w)) =~ Num.one)%num.
Proof.
  intros Hs Hne.
  unfold EGPOptimizer.final_normalization. rewrite Hs.
  unfold Pd.sum, Pd.abs, Pd.div_scalar in *.
  rewrite !values_map_values in *.
  assert (Hpos : 0 < s).
  { pose proof (nansum_abs_nonneg (Pd.values w)) as Hnn.
    rewrite Hs in Hnn. cbn in Hnn. lra. }
  destruct (nansum_abs_div Hpos _ Hs) as (r & Hr & Er).
  rewrite Hr. cbn. rewrite Er. field. lra.
Qed.

Lemma nansum_repeat c n :
  exists r, Pd.nansum (repeat (Fin c) n) = Fin r
            /\ r == inject_Z (Z.of_nat n) * c.
Proof.
  induction n as [| n IH].
  - exists 0. split; [reflexivity |]. cbn. ring.
  - destruct IH as (r & Hr & Er). cbn -[Qred inject_Z Z.of_nat].
    rewrite Hr. cbn -[Qred inject_Z Z.of_nat].
    eexists. split; [reflexivity |]. unred. rewrite Er.
    rewrite Nat2Z.inj_succ. unfold Z.succ. rewrite inject_Z_plus. ring.
Qed.

Lemma values_abs_const c labels :
  Pd.values (Pd.abs (Pd.const c labels))
  = repeat (Num.abs c) (List.length labels).
Proof.
  induction labels as [| k labels IH]; cbn; [reflexivity |].
  f_equal. exact IH.
Qed.

(** equal weights 1/N over N >= 1 assets have sum |w| = 1 *)
Lemma equal_weights_sum labels :
  labels <> [] ->
  (Pd.sum (Pd.abs (Pd.const (Num.one / Num.of_nat (List.length labels))%num
                            labels)) =~ Num.one)%num.
Proof.
  intros Hne. unfold Pd.sum. rewrite values_abs_const.
  assert (Hn : List.length labels <> O)
    by (destruct labels; [congruence | discriminate]).
  pose proof (of_nat_nonzero Hn) as E. cbn in E.
  cbn [Num.div Num.one Num.of_nat]. rewrite E. cbn [Num.abs].
  destruct (nansum_repeat
              (Qabs (Qred (1 / inject_Z (Z.of_nat (List.length labels)))))
              (List.length labels)) as (r & Hr & Er).
  rewrite Hr. unfold Num.eq, Num.one. rewrite Er. unred.
  assert (Hpos : 0 < inject_Z (Z.of_nat (List.length labels))).
  { unfold Qlt. cbn. lia. }
  rewrite Qabs_pos.
  - field. lra.
  - apply Qle_shift_div_l; lra.
Qed.

(** ** [optimize], case by case *)

Lemma calculate_C0_warnings self ws r :
  EGPOptimizer.calculate_C0 self = (ws, r) -> ws = [].
Proof.
  unfold EGPOptimizer.calculate_C0.
  destruct (Num.eqb _ _); intros H; inversion H; reflexivity.
Qed.

Lemma calculate_Z_values_warnings self ws r :
  EGPOptimizer.calculate_Z_values self = (ws, r) -> ws = [].
Proof.
  unfold EGPOptimizer.calculate_Z_values.
  destruct (EGPOptimizer.C0 self) as [c |].
  - cbn. intros H. inversion H; reflexivity.
  - destruct (EGPOptimizer.calculate_C0 self) as [ws0 [[c s1] | e]] eqn:E;
      apply calculate_C0_warnings in E; subst; cbn;
      intros H; inversion H; reflexivity.
Qed.

(** what [optimize] returns when it returns *)
Lemma optimize_cases self p ws w st :
  EGPOptimizer.optimize self p = (ws, Ok (w, st)) ->
  exists Z self1,
    EGPOptimizer.calculate_Z_values self = ([], Ok (Z, self1))
    /\ ((ws = [W_all_Z_zero]
         /\ (Pd.sum (Pd.abs (EGPOptimizer.clipped p Z)) ==? Num.zero)%num = true
         /\ EGPOptimizer.n_stocks self1 <> O
         /\ w = Pd.const (Num.one / Num.of_nat (EGPOptimizer.n_stocks self1))%num
                         (EGPOptimizer.symbols self1))
        \/ (ws = []
            /\ (Pd.sum (Pd.abs (EGPOptimizer.clipped p Z)) ==? Num.zero)%num = false
            /\ w = EGPOptimizer.final_normalization
                     (EGPOptimizer.projected p (EGPOptimizer.clipped p Z)))).
Proof.
  unfold EGPOptimizer.optimize. intros H.
  destruct (EGPOptimizer.calculate_Z_values self) as [ws0 [[Z self1] | e]] eqn:EZ;
    [| discriminate].
  pose proof (calculate_Z_values_warnings _ EZ). subst ws0.
  exists Z, self1. split; [reflexivity |].
  cbn [bind] in H.
  destruct (Pd.sum (Pd.abs (EGPOptimizer.clipped p Z)) ==? Num.zero)%num eqn:E.
  - left. unfold py_div in H.
    destruct (Num.of_nat (EGPOptimizer.n_stocks self1) ==? Num.zero)%num eqn:En.
    + cbn in H. discriminate.
    + cbn in H. inversion H; subst. repeat split; auto.
      intros Hz. rewrite Hz in En. cbn in En. discriminate.
  - right. cbn in H. inversion H; subst. auto.
Qed.



(** C1.  With [max_weight = 0] on the parameters of the test suite,
    [optimize] returns nan for every asset: the sum of the |w| is 0 under
    pandas' nan-skipping sum (and nan under a plain sum), not 1.  The final
    normalization divides by a sum that is 0. *)
Theorem sample_max_weight_zero_all_nan :
  Ex.sample_weights (EGPOptimizer.mk_params false (Some (Ex.q 0 1)) None)
  = ([], Ok [("STOCK_A"%string, NaN); ("STOCK_B"%string, NaN);
             ("STOCK_C"%string, NaN); ("STOCK_D"%string, NaN)])
  /\ Pd.sum (Pd.abs [("STOCK_A"%string, NaN); ("STOCK_B"%string, NaN);
                     ("STOCK_C"%string, NaN); ("STOCK_D"%string, NaN)])
     = Num.zero
  /\ Ex.sums_to_one [("STOCK_A"%string, NaN); ("STOCK_B"%string, NaN);
                     ("STOCK_C"%string, NaN); ("STOCK_D"%string, NaN)]
     = false.
Proof.
  split; [vm_compute; reflexivity |].
  split; vm_compute; reflexivity.
Qed.

(** C3.  On the parameters of the test suite, with short sales disallowed
    and [max_weight = 0.3] (feasible: 4 * 0.3 >= 1), [optimize] returns 1/3
    for three assets, above the bound by more than 1e-6, and nan for the
    fourth, which is not >= -1e-10.  The excess of the third pass is spread
    over free stocks whose weights sum to 0. *)
Theorem sample_max_weight_exceeded :
  Ex.sample_weights (EGPOptimizer.mk_params false (Some (Ex.q 3 10)) None)
  = ([], Ok [("STOCK_A"%string, Fin (1 # 3)); ("STOCK_B"%string, Fin (1 # 3));
             ("STOCK_C"%string, Fin (1 # 3)); ("STOCK_D"%string, NaN)])
  /\ (Fin (1 # 3) <=? Ex.q 3 10 + Ex.q 1 1000000)%num = false
  /\ (NaN >=? Num.opp (Ex.q 1 10000000000))%num = false
  /\ (Num.of_nat 4 * Ex.q 3 10 >=? Num.one)%num = true.
Proof.
  split; [vm_compute; reflexivity |].
  split; [vm_compute; reflexivity |].
  split; vm_compute; reflexivity.
Qed.

(** ** Instances *)

Lemma get_expected_returns_ignores_risk_free_rate_witness :
  exists ws fitted,
    SingleIndexModel.fit Lib.linregress Lib.np_sqrt Ex.model10
    = (ws, Ok fitted)
    /\ SingleIndexModel.get_expected_returns fitted (Fin 0)
       = SingleIndexModel.get_expected_returns fitted (Fin (5 # 100)).
Proof.
  eexists. eexists. split.
  - vm_compute. reflexivity.
  - refine (proj1 (get_expected_returns_ignores_risk_free_rate
                     Lib.linregress Lib.np_sqrt Ex.model10
                     (Fin 0) (Fin (5 # 100)) _)).
    vm_compute. reflexivity.
Defined.

Lemma optimize_degenerate_or_proportional_witness :
  exists self,
    Ex.sample_optimizer = ([], Ok self)
    /\ exists Z self1,
         EGPOptimizer.calculate_Z_values self = ([], Ok (Z, self1)).
Proof.
  eexists. split.
  - vm_compute. reflexivity.
  - match goal with
    | |- exists Z self1, EGPOptimizer.calculate_Z_values ?s = _ =>
        destruct (optimize_degenerate_or_proportional
                    Ex.expected_returns Ex.betas Ex.residual_vars
                    Ex.market_var Ex.risk_free_rate
                    (ws := []) (self := s)
                    (EGPOptimizer.mk_params false None None))
          as (Z & self1 & _ & HZ & _)
    end.
    + vm_compute. reflexivity.
    + exists Z, self1. exact HZ.
Defined.


(** ** [SingleIndexModel.fit] *)

Lemma dict_get_set_same {A} k (v : A) d :
  SingleIndexModel.dict_get k (SingleIndexModel.dict_set k v d) = Some v.
Proof.
  induction d as [| [k' v'] d IH]; cbn.
  - rewrite String.eqb_refl. reflexivity.
  - destruct (String.eqb k k') eqn:E; cbn.
    + rewrite String.eqb_refl. reflexivity.
    + rewrite E. exact IH.
Qed.

Lemma dict_get_set_other {A} k k' (v : A) d :
  k <> k' ->
  SingleIndexModel.dict_get k' (SingleIndexModel.dict_set k v d)
  = SingleIndexModel.dict_get k' d.
Proof.
  intros Hne. induction d as [| [k0 v0] d IH]; cbn.
  - destruct (String.eqb k' k) eqn:E; [| reflexivity].
    apply String.eqb_eq in E. congruence.
  - destruct (String.eqb k k0) eqn:E; cbn.
    + apply String.eqb_eq in E. subst k0.
      destruct (String.eqb k' k) eqn:E'; [| reflexivity].
      apply String.eqb_eq in E'. congruence.
    + rewrite IH. reflexivity.
Qed.

Lemma select_nan_mask y : forall x,
  Df.select (SingleIndexModel.nan_mask y x) y
  = map fst (filter (fun p => negb (Num.isnan (fst p) || Num.isnan (snd p)))
                    (combine y x))
  /\ Df.select (SingleIndexModel.nan_mask y x) x
     = map snd (filter (fun p => negb (Num.isnan (fst p) || Num.isnan (snd p)))
                       (combine y x)).
Proof.
  unfold SingleIndexModel.nan_mask.
  induction y as [| a y IH]; intros x; cbn.
  - auto.
  - destruct x as [| b x]; cbn; [auto |].
    destruct (IH x) as [H1 H2].
    destruct (negb (Num.isnan a || Num.isnan b)); cbn; split; congruence.
Qed.

Lemma kept_pairs_no_nan self symbol p :
  In p (kept_pairs self symbol) ->
  Num.isnan (fst p) = false /\ Num.isnan (snd p) = false.
Proof.
  unfold kept_pairs. rewrite filter_In. intros [_ H].
  apply negb_true_iff in H. apply orb_false_iff in H. exact H.
Qed.

Section FitSpec.

Variable linregress :
  list num -> list num -> result (num * num * num * num * num).
Variable np_sqrt : num -> num.

Import SingleIndexModel.

Lemma fit_symbol_skip self symbol :
  (List.length (kept_pairs self symbol) < 10)%nat ->
  fit_symbol linregress np_sqrt self symbol
  = ([W_skipping symbol (List.length (kept_pairs self symbol))], Ok self).
Proof.
  intros H. unfold fit_symbol.
  destruct (select_nan_mask (Df.column (stock_returns self) symbol)
                            (map snd (market_returns self))) as [Hy Hx].
  rewrite Hy. fold (kept_pairs self symbol). rewrite length_map.
  apply Nat.ltb_lt in H. rewrite H. reflexivity.
Qed.

Lemma fit_symbol_fit self symbol ws self' :
  (10 <= List.length (kept_pairs self symbol))%nat ->
  fit_symbol linregress np_sqrt self symbol = (ws, Ok self') ->
  ws = []
  /\ exists p, regressed linregress self symbol p
               /\ results self' = dict_set symbol p (results self).
Proof.
  intros H. unfold fit_symbol.
  destruct (select_nan_mask (Df.column (stock_returns self) symbol)
                            (map snd (market_returns self))) as [Hy Hx].
  rewrite Hy, Hx. fold (kept_pairs self symbol). rewrite length_map.
  apply Nat.ltb_ge in H. rewrite H.
  destruct (linregress _ _) as [[[[[sl ic] r] pv] se] | e] eqn:E;
    [| discriminate].
  intros Heq. inversion Heq; subst. split; [reflexivity |].
  eexists. split; [| reflexivity].
  unfold regressed. cbn. split; [reflexivity |].
  exists r, pv, se. exact E.
Qed.

(** the invariant of the loop of [fit] *)
Lemma fit_loop_spec syms : forall self ws self',
  fit_loop linregress np_sqrt syms self = (ws, Ok self') ->
  (forall s p, dict_get s (results self') = Some p ->
               dict_get s (results self) = Some p
               \/ (In s syms
                   /\ (10 <= List.length (kept_pairs self s))%nat
                   /\ regressed linregress self s p))
  /\ (forall s, In s syms ->
                (10 <= List.length (kept_pairs self s))%nat ->
                dict_get s (results self') <> None)
  /\ (forall s, dict_get s (results self) <> None ->
                dict_get s (results self') <> None)
  /\ (forall s, In s syms ->
                (List.length (kept_pairs self s) < 10)%nat ->
                In (W_skipping s (List.length (kept_pairs self s))) ws).
Proof.
  induction syms as [| a syms IH]; intros self ws self' H.
  - cbn in H. inversion H; subst. repeat split; auto; contradiction.
  - cbn [fit_loop] in H.
    apply bind_ok_inv in H. destruct H as (ws1 & self1 & ws2 & H1 & H2 & ->).
    pose proof (fit_symbol_market _ _ _ _ H1) as (_ & _ & Hm & Hs).
    assert (Hk : forall s, kept_pairs self1 s = kept_pairs self s).
    { intros s. unfold kept_pairs. rewrite Hm, Hs. reflexivity. }
    destruct (IH _ _ _ H2) as (I1 & I2 & I3 & I4).
    destruct (Nat.lt_ge_cases (List.length (kept_pairs self a)) 10)
      as [Hlt | Hge].
    + rewrite (fit_symbol_skip self a Hlt) in H1.
      inversion H1; subst ws1 self1.
      split; [| split; [| split]].
      * intros s p Hp. destruct (I1 s p Hp) as [? | (? & ? & ?)]; auto.
        right. cbn. auto.
      * intros s [-> | Hin] Hs10; [lia | auto].
      * exact I3.
      * intros s [-> | Hin] Hs10; [left; reflexivity |].
        right. apply I4; assumption.
    + destruct (fit_symbol_fit self a Hge H1) as (-> & p0 & Hp0 & Hres).
      split; [| split; [| split]].
      * intros s p Hp. destruct (I1 s p Hp) as [Hold | (Hin & Hlen & Hreg)].
        -- rewrite Hres in Hold. destruct (string_dec a s) as [-> | Hne].
           ++ rewrite dict_get_set_same in Hold. inversion Hold; subst.
              right. cbn. auto.
           ++ rewrite (dict_get_set_other _ _ Hne) in Hold. auto.
        -- right. rewrite Hk in Hlen. unfold regressed in Hreg |- *.
           rewrite !Hk in Hreg. cbn. tauto.
      * intros s Hin Hs10. destruct (string_dec a s) as [-> | Hne].
        -- apply I3. rewrite Hres, dict_get_set_same. discriminate.
        -- destruct Hin as [-> | Hin]; [congruence |].
           apply I2; [exact Hin | rewrite Hk; exact Hs10].
      * intros s Hs'. apply I3. rewrite Hres.
        destruct (string_dec a s) as [-> | Hne].
        -- rewrite dict_get_set_same. discriminate.
        -- rewrite (dict_get_set_other _ _ Hne). exact Hs'.
      * intros s [-> | Hin] Hs10; [lia |]. cbn. rewrite <- Hk.
        apply I4; [exact Hin | rewrite Hk; exact Hs10].
Qed.

End FitSpec.

(** C7, as amended.  In [fit], for every asset the pairs in which the
    asset return or the market return is nan, and only those, are left out
    before the regression (an infinite value is kept).  When [fit] returns
    on a model with no earlier results: an asset with fewer than 10 kept
    pairs is skipped with a warning and is absent from the results; every
    asset with at least 10 kept pairs is in the results, with the regression
    of exactly its kept pairs. *)
Theorem fit_drops_nan_and_skips_short_series :
  forall linregress np_sqrt self ws fitted symbol,
    SingleIndexModel.fit linregress np_sqrt self = (ws, Ok fitted) ->
    SingleIndexModel.results self = [] ->
    let y := Df.column (SingleIndexModel.stock_returns self) symbol in
    let x := map snd (SingleIndexModel.market_returns self) in
    let kept := kept_pairs self symbol in
    Df.select (SingleIndexModel.nan_mask y x) y = map fst kept
    /\ Df.select (SingleIndexModel.nan_mask y x) x = map snd kept
    /\ (forall p, In p (combine y x) ->
           (In p kept <->
            Num.isnan (fst p) = false /\ Num.isnan (snd p) = false))
    /\ (In symbol (SingleIndexModel.symbols self) ->
        (List.length kept < 10)%nat ->
        In (W_skipping symbol (List.length kept)) ws
        /\ SingleIndexModel.dict_get symbol (SingleIndexModel.results fitted)
           = None)
    /\ (In symbol (SingleIndexModel.symbols self) ->
        (10 <= List.length kept)%nat ->
        exists p,
          SingleIndexModel.dict_get symbol (SingleIndexModel.results fitted)
          = Some p
          /\ SingleIndexModel.n_observations p = List.length kept
          /\ exists r pv se,
               linregress (map snd kept) (map fst kept)
               = Ok (SingleIndexModel.beta p, SingleIndexModel.alpha p,
                     r, pv, se)).
Proof.
  intros lr sq self ws fitted symbol Hfit Hres y x kept.
  destruct (select_nan_mask y x) as [Hy Hx].
  split; [exact Hy |]. split; [exact Hx |].
  split.
  { intros p Hin. unfold kept, kept_pairs. fold y. fold x.
    rewrite filter_In, negb_true_iff, orb_false_iff. tauto. }
  unfold SingleIndexModel.fit in Hfit.
  apply fit_loop_spec in Hfit. cbn [SingleIndexModel.symbols
    SingleIndexModel.results] in Hfit.
  destruct Hfit as (I1 & I2 & _ & I4).
  assert (Hk : forall s,
             kept_pairs
               (SingleIndexModel.mk (SingleIndexModel.stock_returns self)
                  (SingleIndexModel.market_returns self)
                  (SingleIndexModel.symbols self)
                  (SingleIndexModel.results self)
                  (Some (SingleIndexModel.series_var
                           (map snd (SingleIndexModel.market_returns self))))
                  (Some (SingleIndexModel.series_mean
                           (map snd (SingleIndexModel.market_returns self)))))
               s = kept_pairs self s) by reflexivity.
  split.
  - intros Hin Hlt. split.
    + specialize (I4 symbol Hin). rewrite Hk in I4. apply I4. exact Hlt.
    + destruct (SingleIndexModel.dict_get symbol
                  (SingleIndexModel.results fitted)) as [p |] eqn:E;
        [| reflexivity].
      destruct (I1 symbol p E) as [Hold | (_ & Hlen & _)].
      * rewrite Hres in Hold. discriminate.
      * rewrite Hk in Hlen. fold kept in Hlen. lia.
  - intros Hin Hge.
    specialize (I2 symbol Hin). rewrite Hk in I2. specialize (I2 Hge).
    destruct (SingleIndexModel.dict_get symbol
                (SingleIndexModel.results fitted)) as [p |] eqn:E;
      [| congruence].
    exists p. split; [reflexivity |].
    destruct (I1 symbol p E) as [Hold | (_ & _ & Hreg)].
    + rewrite Hres in Hold. discriminate.
    + destruct Hreg as [Hn Hreg]. split; [exact Hn | exact Hreg].
Qed.

Lemma fit_drops_nan_and_skips_short_series_witness :
  exists ws fitted,
    SingleIndexModel.fit Lib.linregress Lib.np_sqrt Ex.model10
    = (ws, Ok fitted)
    /\ SingleIndexModel.results Ex.model10 = []
    /\ exists p,
         SingleIndexModel.dict_get "A" (SingleIndexModel.results fitted)
         = Some p
         /\ SingleIndexModel.n_observations p
            = List.length (kept_pairs Ex.model10 "A").
Proof.
  eexists. eexists. split; [vm_compute; reflexivity |].
  split; [reflexivity |].
  match goal with
  | |- exists p, SingleIndexModel.dict_get _ (SingleIndexModel.results ?f) = _ /\ _ =>
      destruct (fit_drops_nan_and_skips_short_series
                  Lib.linregress Lib.np_sqrt Ex.model10 (ws := []) (fitted := f)
                  "A") as (_ & _ & _ & _ & H)
  end.
  - vm_compute. reflexivity.
  - reflexivity.
  - destruct H as (p & Hp & Hn & _).
    + left. reflexivity.
    + vm_compute. apply le_n.
    + exists p. split; [exact Hp | exact Hn].
Defined.

(** C7, the claim as stated fails: a pair with an infinite (non-finite)
    asset return is not dropped.  The asset has 9 finite pairs and one
    infinite one; it is fitted on 10 observations, with no warning, where
    the claim has it skipped. *)
Lemma fit_keeps_infinite_return :
  In (PInf, Ex.q 3 100) (kept_pairs Ex.model_inf "A")
  /\ List.length
       (filter (fun p => Num.isfinite (fst p) && Num.isfinite (snd p))
               (combine (Df.column Ex.stocks_inf "A") (map snd Ex.market10)))
     = 9%nat
  /\ exists fitted p,
       SingleIndexModel.fit Lib.linregress Lib.np_sqrt Ex.model_inf
       = ([], Ok fitted)
       /\ SingleIndexModel.dict_get "A" (SingleIndexModel.results fitted)
          = Some p
       /\ SingleIndexModel.n_observations p = 10%nat.
Proof.
  split; [vm_compute; tauto |].
  split; [vm_compute; reflexivity |].
  eexists. eexists. split; [vm_compute; reflexivity |].
  split; [vm_compute; reflexivity | reflexivity].
Qed.

(** ** [Backtester] *)

Lemma bind_assoc {A B C} (m : M A) (f : A -> M B) (g : B -> M C) :
  bind (bind m f) g = bind m (fun a => bind (f a) g).
Proof.
  destruct m as [ws [a | e]]; cbn; [| reflexivity].
  destruct (f a) as [ws1 [b | e1]]; cbn.
  - destruct (g b) as [ws2 r]. rewrite app_assoc. reflexivity.
  - reflexivity.
Qed.




(** at the end of a window of 30 dates where no asset can be fitted the
    optimisation step raises and the weights are the equal weights *)
Lemma optimization_failure_falls_back :
  Backtester._optimize_portfolio_at_date
    Lib.linregress Lib.np_sqrt Ex.nan_backtester 30%Z 252%nat None
  = ([W_skipping "A" 0%nat;
      W_optimization_failed 30%Z SingleIndexModel.no_results],
     Ok [("A"%string, Fin 1)]).
Proof. vm_compute. reflexivity. Qed.


(** ** Dicts *)



Lemma dict_set_keys {A} s (v : A) d k :
  In k (map fst (SingleIndexModel.dict_set s v d))
  <-> k = s \/ In k (map fst d).
Proof.
  induction d as [| [k' v'] d IH]; cbn.
  - split; [intros [H | []]; auto | intros [H | []]; auto].
  - destruct (String.eqb s k') eqn:E; cbn.
    + apply String.eqb_eq in E. subst k'. split; intros [H | H]; auto.
    + rewrite IH. tauto.
Qed.

Lemma dict_set_NoDup {A} s (v : A) d :
  NoDup (map fst d) -> NoDup (map fst (SingleIndexModel.dict_set s v d)).
Proof.
  induction d as [| [k' v'] d IH]; cbn; intros H.
  - constructor; [tauto | constructor].
  - inversion H as [| ? ? Hnin Hnd]; subst.
    destruct (String.eqb s k') eqn:E; cbn.
    + apply String.eqb_eq in E. subst k'. constructor; assumption.
    + apply String.eqb_neq in E. constructor; [| auto].
      rewrite dict_set_keys. intros [Hk | Hin]; [congruence | contradiction].
Qed.

Lemma dict_get_app {A} s (d d' : list (string * A)) :
  SingleIndexModel.dict_get s (d ++ d')
  = match SingleIndexModel.dict_get s d with
    | Some v => Some v
    | None => SingleIndexModel.dict_get s d'
    end.
Proof.
  induction d as [| [k v] d IH]; cbn; [reflexivity |].
  destruct (String.eqb s k); [reflexivity | exact IH].
Qed.



(** ** [Portfolio]: prices and values *)









(** an asset without a valid price adds nothing to the value *)
Lemma holdings_value_missing prices s z h :
  Portfolio.valid_price prices s = None ->
  Portfolio.holdings_value ((s, z) :: h) prices
  = Portfolio.holdings_value h prices.
Proof.
  intros H. unfold Portfolio.holdings_value. cbn [fold_left fst].
  rewrite H. reflexivity.
Qed.

(** ** [Portfolio.rebalance]: target quantities *)


Lemma lookup_In_NoDup s w (tw : Series) :
  NoDup (Pd.index tw) -> In (s, w) tw -> Pd.lookup s tw = Some w.
Proof.
  induction tw as [| [k x] tw IH]; cbn; intros Hnd Hin; [contradiction |].
  inversion Hnd as [| ? ? Hnin Hnd']; subst.
  destruct Hin as [Heq | Hin].
  - inversion Heq; subst. rewrite String.eqb_refl. reflexivity.
  - destruct (String.eqb s k) eqn:E.
    + apply String.eqb_eq in E. subst k. exfalso. apply Hnin.
      apply in_map_iff. exists (s, w). auto.
    + apply IH; assumption.
Qed.

Section TargetQuantities.

Variable prices : Series.
Variable V : num.


End TargetQuantities.

(** ** [Portfolio.rebalance]: the trading loop *)







(** ** [Portfolio.rebalance]: cash flow and cost *)





(** ** Truncation *)


(** ** [Portfolio.rebalance]: the two properties *)




(** ** The ledger on an example *)


(** 71428 shares of A at 7 for half of 1,000,000; B has no price and is
    left out; the value afterwards is the value before minus the cost *)
Lemma example_rebalance :
  exists info pf,
    Portfolio.rebalance Ex.ledger 1%Z Ex.targets Ex.quotes
    = ([], Ok (info, pf))
    /\ Portfolio.holdings pf = [("A"%string, 71428%Z)]
    /\ Portfolio.total_cost info = Fin (374997 # 500)
    /\ Portfolio.cash pf = Fin (249627003 # 500)
    /\ Portfolio.get_portfolio_value pf Ex.quotes = Fin (499625003 # 500).
Proof.
  eexists. eexists. split; [vm_compute; reflexivity |].
  split; [reflexivity |]. split; [reflexivity |].
  split; [reflexivity |]. vm_compute. reflexivity.
Qed.



(** ** [optimize]: the sum of the |w| *)

(** the weights [optimize] returns have sum |w| = 1 on the degenerate
    branch, and on the normal branch when the sum of the |w| of the
    projected vector is finite and not zero *)
Lemma optimize_sum_abs er bs rv mv rf ws0 self p ws w st :
  EGPOptimizer.init er bs rv mv rf = (ws0, Ok self) ->
  EGPOptimizer.optimize self p = (ws, Ok (w, st)) ->
  (ws = [W_all_Z_zero] -> (Pd.sum (Pd.abs w) =~ Num.one)%num)
  /\ (ws = [] ->
      exists Z self1,
        EGPOptimizer.calculate_Z_values self = ([], Ok (Z, self1))
        /\ forall s,
             Pd.sum (Pd.abs (EGPOptimizer.projected
                               p (EGPOptimizer.clipped p Z))) = Fin s ->
             ~ s == 0 -> (Pd.sum (Pd.abs w) =~ Num.one)%num).
Proof.
  intros Hinit Hopt. apply init_ok in Hinit.
  destruct Hinit as (_ & Hrv & Hmv & HC & Hne & Hn & _).
  destruct (calculate_Z_values_ok self Hrv Hmv HC)
    as (Z' & self1' & HZ' & Hs & Hn1).
  destruct (optimize_cases _ _ Hopt) as (Z & self1 & HZ & Hcase).
  rewrite HZ' in HZ. inversion HZ; subst Z' self1'.
  split.
  - intros Hws. destruct Hcase as [(_ & _ & _ & Hw) | (Hw & _)];
      [| congruence].
    subst w. rewrite Hn1, Hs, Hn. apply equal_weights_sum. exact Hne.
  - intros Hws. exists Z, self1. split; [exact HZ' |].
    intros s Hsum Hnz.
    destruct Hcase as [(Hw & _) | (_ & _ & Hw)]; [congruence |].
    subst w. apply final_normalization_sum with (s := s); assumption.
Qed.

(* ================================================================= *)
(** * Further properties of the code *)

(** ** [EGPOptimizer]: what the constructor guarantees *)

(** the constructor leaves the results empty *)
Lemma init_fresh er bs rv mv rf ws self :
  EGPOptimizer.init er bs rv mv rf = (ws, Ok self) ->
  EGPOptimizer.weights self = None /\ EGPOptimizer.Z_values self = None.
Proof.
  unfold EGPOptimizer.init.
  destruct (Nat.eqb _ 0); [discriminate |].
  destruct (Pd.any _); [discriminate |].
  destruct (Num.leb _ _); [discriminate |].
  intros H. inversion H; subst. cbn. auto.
Qed.

(** for an optimizer returned by the constructor [optimize] returns, and
    the state it leaves has the weights and the same inputs *)
Lemma optimize_returns er bs rv mv rf ws0 self p :
  EGPOptimizer.init er bs rv mv rf = (ws0, Ok self) ->
  exists ws w st,
    EGPOptimizer.optimize self p = (ws, Ok (w, st))
    /\ EGPOptimizer.weights st = Some w
    /\ EGPOptimizer.residual_vars st = EGPOptimizer.residual_vars self
    /\ EGPOptimizer.market_var st = EGPOptimizer.market_var self
    /\ EGPOptimizer.expected_returns st = EGPOptimizer.expected_returns self
    /\ EGPOptimizer.betas st = EGPOptimizer.betas self.
Proof.
  intros Hinit. apply init_ok in Hinit.
  destruct Hinit as (_ & Hrv & Hmv & HC & Hne & Hn & _).
  unfold EGPOptimizer.calculate_Z_values, EGPOptimizer.optimize.
  unfold EGPOptimizer.calculate_Z_values. rewrite HC.
  destruct (calculate_C0_ok self Hrv Hmv) as [c Hc]. rewrite Hc.
  cbn [bind ret app fst snd].
  match goal with
  | |- context [Num.eqb ?t Num.zero] => destruct (Num.eqb t Num.zero)
  end.
  - unfold py_div. cbn [EGPOptimizer.n_stocks EGPOptimizer.set_Z_values
                       EGPOptimizer.set_C0].
    rewrite of_nat_nonzero.
    + cbn. do 3 eexists. split; [reflexivity |]. cbn. auto.
    + rewrite Hn. destruct (EGPOptimizer.symbols self);
        [congruence | discriminate].
  - cbn. do 3 eexists. split; [reflexivity |]. cbn. auto.
Qed.

(** X1.  For an optimizer returned by the constructor, [calculate_C0]
    never raises: with residual variances and a market variance that passed
    the validation, the denominator 1 + market_var * B is never 0, so the
    "Denominator is zero" error cannot happen; the value is stored in the
    state. *)
Theorem calculate_C0_never_raises :
  forall er bs rv mv rf ws self,
    EGPOptimizer.init er bs rv mv rf = (ws, Ok self) ->
    exists c st,
      EGPOptimizer.calculate_C0 self = ([], Ok (c, st))
      /\ EGPOptimizer.C0 st = Some c
      /\ (exists Z st', EGPOptimizer.calculate_Z_values self
                        = ([], Ok (Z, st'))
                        /\ EGPOptimizer.C0 st' = Some c
                        /\ EGPOptimizer.Z_values st' = Some Z).
Proof.
  intros er bs rv mv rf ws self Hinit. apply init_ok in Hinit.
  destruct Hinit as (_ & Hrv & Hmv & HC & _).
  destruct (calculate_C0_ok self Hrv Hmv) as [c Hc].
  exists c, (EGPOptimizer.set_C0 self c).
  split; [exact Hc |]. split; [reflexivity |].
  unfold EGPOptimizer.calculate_Z_values. rewrite HC, Hc.
  cbn. eexists. eexists. split; [reflexivity |]. cbn. auto.
Qed.

Lemma calculate_C0_never_raises_witness :
  exists self,
    Ex.sample_optimizer = ([], Ok self)
    /\ exists c st,
         EGPOptimizer.calculate_C0 self = ([], Ok (c, st))
         /\ EGPOptimizer.C0 st = Some c.
Proof.
  eexists. split; [vm_compute; reflexivity |].
  match goal with
  | |- exists c st, EGPOptimizer.calculate_C0 ?s = _ /\ _ =>
      destruct (calculate_C0_never_raises
                  Ex.expected_returns Ex.betas Ex.residual_vars
                  Ex.market_var Ex.risk_free_rate (ws := []) (self := s))
        as (c & st & Hc & HC & _)
  end.
  - vm_compute. reflexivity.
  - exists c, st. split; [exact Hc | exact HC].
Defined.

(** ** [get_portfolio_statistics] *)

Lemma mul_nonneg_pos a r :
  nonneg_or_nan a -> (r <=? Num.zero)%num = false ->
  nonneg_or_nan (a * r)%num.
Proof.
  intros Ha Hr. apply leb_zero_false in Hr.
  destruct a as [x | | |], r as [y | | |]; cbn -[Qred] in *;
    auto; try contradiction.
  - unred. nra.
  - destruct (Num.Qsgn x) eqn:E; cbn; auto.
    exfalso. destruct (Qlt_le_dec 0 x) as [Hp | Hn].
    + rewrite (Qsgn_pos Hp) in E. discriminate.
    + assert (H0 : x == 0) by lra. rewrite (Qsgn_zero H0) in E.
      discriminate.
  - rewrite (Qsgn_pos Hr). cbn. exact I.
Qed.

Lemma add_nonneg a b :
  nonneg_or_nan a -> nonneg b -> nonneg_or_nan (a + b)%num.
Proof.
  destruct a as [x | | |], b as [y | | |]; cbn -[Qred];
    auto; try contradiction.
  intros Hx Hy. unred. lra.
Qed.

(** X2.  [get_portfolio_statistics] raises [ValueError] on an optimizer
    on which [optimize] has not run; after any call of [optimize] it
    returns, and the portfolio variance it reports is never negative (it is
    >= 0, +inf or nan), whatever the weights. *)
Theorem statistics_after_optimize_only :
  forall np_sqrt er bs rv mv rf ws self p,
    EGPOptimizer.init er bs rv mv rf = (ws, Ok self) ->
    Statistics.get_portfolio_statistics np_sqrt self
    = ([], Raise Statistics.not_optimized)
    /\ exists ws' w st stats,
         EGPOptimizer.optimize self p = (ws', Ok (w, st))
         /\ Statistics.get_portfolio_statistics np_sqrt st = ([], Ok stats)
         /\ nonneg_or_nan (Statistics.portfolio_variance stats)
         /\ Statistics.portfolio_std stats
            = np_sqrt (Statistics.portfolio_variance stats).
Proof.
  intros sq er bs rv mv rf ws self p Hinit.
  destruct (@optimize_returns er bs rv mv rf ws self p Hinit)
    as (ws' & w & st & Hopt & Hw & Hrv' & Hmv' & _ & _).
  pose proof (@init_fresh er bs rv mv rf ws self Hinit) as [HW _].
  apply init_ok in Hinit.
  destruct Hinit as (_ & Hrv & Hmv & _ & _ & _ & _).
  split.
  - unfold Statistics.get_portfolio_statistics.
    rewrite HW. reflexivity.
  - exists ws', w, st. unfold Statistics.get_portfolio_statistics.
    rewrite Hw. eexists. split; [exact Hopt |]. split; [reflexivity |].
    cbn [Statistics.portfolio_variance Statistics.portfolio_std].
    split; [| reflexivity].
    apply add_nonneg.
    + apply mul_nonneg_pos; [apply square_nonneg |].
      rewrite Hmv'. exact Hmv.
    + apply nansum_nonneg.
      apply zip_with_values_l
        with (P := nonneg_or_nan)
             (R := fun x => (x <=? Num.zero)%num = false).
      * intros x y Hx Hy. apply mul_nonneg_pos; assumption.
      * apply map_values_all. apply square_nonneg.
      * rewrite Hrv'. exact Hrv.
Qed.

Lemma statistics_after_optimize_only_witness :
  exists self,
    Ex.sample_optimizer = ([], Ok self)
    /\ Statistics.get_portfolio_statistics Lib.np_sqrt self
       = ([], Raise Statistics.not_optimized).
Proof.
  eexists. split; [vm_compute; reflexivity |].
  match goal with
  | |- Statistics.get_portfolio_statistics _ ?s = _ =>
      refine (proj1 (statistics_after_optimize_only
                       Lib.np_sqrt
                       Ex.expected_returns Ex.betas Ex.residual_vars
                       Ex.market_var Ex.risk_free_rate (ws := []) (self := s)
                       (EGPOptimizer.mk_params false None None) _))
  end.
  vm_compute. reflexivity.
Defined.

(** ** [Portfolio.rebalance]: when it raises *)

Lemma py_int_not_finite x :
  Num.isfinite x = false ->
  exists e, py_int x = ([], Raise e)
            /\ (exists msg, e = ValueError msg \/ e = OverflowError msg).
Proof.
  destruct x; cbn; intros H; try discriminate;
    eexists; (split; [reflexivity |]); eexists; eauto.
Qed.

Lemma div_zero_not_finite a p :
  (p ==? Num.zero)%num = true -> Num.isfinite (a / p)%num = false.
Proof.
  destruct p as [y | | |]; cbn; try discriminate. intros Hy.
  destruct a as [x | | |]; cbn; rewrite ?Hy; try reflexivity.
  destruct (Num.Qsgn x); reflexivity.
Qed.

Lemma target_quantities_raises prices V : forall tw acc s w p,
  In (s, w) tw ->
  Portfolio.valid_price prices s = Some p ->
  Num.isfinite (w * V / p)%num = false ->
  exists e, Portfolio.target_quantities tw prices V acc = ([], Raise e)
            /\ (exists msg, e = ValueError msg \/ e = OverflowError msg).
Proof.
  induction tw as [| [k x] tw IH]; intros acc s w p Hin Hp Hnf;
    [contradiction |].
  cbn [Portfolio.target_quantities].
  destruct Hin as [Heq | Hin].
  - inversion Heq; subst. rewrite Hp.
    destruct (py_int_not_finite _ Hnf) as (e & He & Hmsg).
    rewrite He. exists e. split; [reflexivity | exact Hmsg].
  - destruct (Portfolio.valid_price prices k) as [pk |] eqn:Ek.
    + destruct (x * V / pk)%num as [y | | |] eqn:Ey.
      * cbn [py_int]. rewrite bind_ret_l. eapply IH; eassumption.
      * eexists. split; [reflexivity |]. eexists. eauto.
      * eexists. split; [reflexivity |]. eexists. eauto.
      * eexists. split; [reflexivity |]. eexists. eauto.
    + eapply IH; eassumption.
Qed.

(** X3.  [rebalance] raises a ValueError or an OverflowError, before it
    trades anything, as soon as one target asset with a valid price has a
    target quantity that is not a finite number: a nan weight (as
    [optimize] can return), or a price of 0. *)
Theorem rebalance_raises_on_undefined_quantity :
  forall self d target_weights prices s w p,
    In (s, w) target_weights ->
    Portfolio.valid_price prices s = Some p ->
    w = NaN \/ (p ==? Num.zero)%num = true ->
    exists e,
      Portfolio.rebalance self d target_weights prices = ([], Raise e)
      /\ (exists msg, e = ValueError msg \/ e = OverflowError msg).
Proof.
  intros self d tw prices s w p Hin Hp Hbad.
  assert (Hnf : Num.isfinite
                  (w * Portfolio.get_portfolio_value self prices / p)%num
                = false).
  { destruct Hbad as [-> | Hz].
    - reflexivity.
    - apply div_zero_not_finite. exact Hz. }
  destruct (@target_quantities_raises
              prices (Portfolio.get_portfolio_value self prices)
              tw [] s w p Hin Hp Hnf) as (e & He & Hmsg).
  exists e. split; [| exact Hmsg].
  unfold Portfolio.rebalance. rewrite He. reflexivity.
Qed.

Lemma rebalance_raises_on_undefined_quantity_witness :
  In ("A"%string, NaN) [("A"%string, NaN)]
  /\ Portfolio.valid_price Ex.quotes "A" = Some (Ex.q 7 1)
  /\ exists e,
       Portfolio.rebalance Ex.ledger 1%Z [("A"%string, NaN)] Ex.quotes
       = ([], Raise e).
Proof.
  assert (Hin : In ("A"%string, NaN) [("A"%string, NaN)])
    by (left; reflexivity).
  assert (Hp : Portfolio.valid_price Ex.quotes "A" = Some (Ex.q 7 1))
    by reflexivity.
  split; [exact Hin |]. split; [exact Hp |].
  destruct (@rebalance_raises_on_undefined_quantity
              Ex.ledger 1%Z [("A"%string, NaN)] Ex.quotes
              "A"%string NaN (Ex.q 7 1) Hin Hp (or_introl eq_refl))
    as (e & He & _).
  exists e. exact He.
Defined.

(** ** [Portfolio.rebalance]: no cost, no loss *)





(** ** [Backtester.run]: what the loop records, and when it aborts *)

Lemma row_warnings df d ws r : Df.row df d = (ws, r) -> ws = [].
Proof.
  unfold Df.row. destruct (Df.lookup d (rows df)); intros H; inversion H;
    reflexivity.
Qed.

(** X5.  A nan weight aborts the backtest: on a rebalance date where
    [_optimize_portfolio_at_date] returns a Series with a nan weight for an
    asset that has a price on that date, the iteration of [run] raises (in
    [int()], inside [Portfolio.rebalance]), and so does the loop over any
    dates that start with it: the exception is not caught. *)
Theorem nan_weight_aborts_backtest :
  forall linregress np_sqrt self rebalance_dates lookback optimizer_params
         st d ws w prices s p,
    Df.mem_date d rebalance_dates = true ->
    Backtester._optimize_portfolio_at_date
      linregress np_sqrt self d lookback optimizer_params = (ws, Ok w) ->
    Df.row (Backtester.stock_prices self) d = ([], Ok prices) ->
    In (s, NaN) w ->
    Portfolio.valid_price prices s = Some p ->
    exists e,
      Backtester.run_step linregress np_sqrt self rebalance_dates lookback
                          optimizer_params st d = (ws, Raise e)
      /\ forall rest,
           Backtester.run_loop linregress np_sqrt self rebalance_dates
                               lookback optimizer_params (d :: rest) st
           = (ws, Raise e).
Proof.
  intros lr sq self rd L op st d ws w prices s p Hmem Hw Hrow Hin Hp.
  destruct (@target_quantities_raises
              prices
              (Portfolio.get_portfolio_value (Backtester.portfolio st) prices)
              w [] s NaN p Hin Hp eq_refl) as (e & He & _).
  assert (Hstep : Backtester.run_step lr sq self rd L op st d
                  = (ws, Raise e)).
  { assert (Hk : (st1 <- Backtester.rebalance_at self st d w ;;
                   Backtester.record_at self st1 d) = ([], Raise e)).
    { unfold Backtester.rebalance_at. rewrite Hrow, bind_pure.
      unfold Portfolio.rebalance. rewrite He. reflexivity. }
    unfold Backtester.run_step. rewrite Hmem.
    rewrite bind_assoc. rewrite (bind_ok _ Hw). rewrite Hk.
    cbn. rewrite app_nil_r. reflexivity. }
  exists e. split; [exact Hstep |].
  intros rest. cbn [Backtester.run_loop]. rewrite Hstep. reflexivity.
Qed.

Lemma nan_weight_aborts_backtest_witness :
  Backtester._optimize_portfolio_at_date
    Lib.linregress Lib.np_sqrt Ex.noisy_backtester 30%Z 252%nat
    (Some Ex.zero_cap)
  = ([], Ok [("A"%string, NaN)])
  /\ exists e,
       Backtester.run_step
         Lib.linregress Lib.np_sqrt Ex.noisy_backtester [30%Z] 252%nat
         (Some Ex.zero_cap)
         (Backtester.mk_loop Ex.ledger [] [] [] None) 30%Z
       = ([], Raise e).
Proof.
  assert (Hw : Backtester._optimize_portfolio_at_date
                 Lib.linregress Lib.np_sqrt Ex.noisy_backtester 30%Z 252%nat
                 (Some Ex.zero_cap)
               = ([], Ok [("A"%string, NaN)])) by (vm_compute; reflexivity).
  split; [exact Hw |].
  destruct (@nan_weight_aborts_backtest
              Lib.linregress Lib.np_sqrt Ex.noisy_backtester [30%Z] 252%nat
              (Some Ex.zero_cap)
              (Backtester.mk_loop Ex.ledger [] [] [] None) 30%Z
              [] [("A"%string, NaN)] [("A"%string, Ex.q 10 1)]
              "A"%string (Ex.q 10 1))
    as (e & He & _).
  - reflexivity.
  - exact Hw.
  - vm_compute. reflexivity.
  - left. reflexivity.
  - reflexivity.
  - exists e. exact He.
Defined.




Section RunFacts.

Variable linregress :
  list num -> list num -> result (num * num * num * num * num).
Variable np_sqrt : num -> num.
Variable self : Backtester.t.
Variable rebalance_dates : list date.
Variable lookback : nat.
Variable optimizer_params : option EGPOptimizer.params.



End RunFacts.



(** ** [SingleIndexModel.__init__] *)










(** ** From the fitted model to the optimizer *)

Lemma filter_all {A} (f : A -> bool) l :
  (forall x, In x l -> f x = true) -> filter f l = l.
Proof.
  induction l as [| x l IH]; intros H; cbn; [reflexivity |].
  rewrite (H x (or_introl eq_refl)). f_equal. apply IH.
  intros y Hy. apply H. now right.
Qed.

Lemma unique_from_NoDup l : forall seen,
  NoDup l -> (forall k, In k l -> ~ In k seen) ->
  Pd.unique_from seen l = l.
Proof.
  induction l as [| a l IH]; intros seen Hnd Hdis; cbn; [reflexivity |].
  inversion Hnd as [| ? ? Hnin Hnd']; subst.
  destruct (Pd.mem a seen) eqn:E.
  - apply mem_In in E. exfalso. exact (Hdis a (or_introl eq_refl) E).
  - f_equal. apply IH; [exact Hnd' |].
    intros k Hk [Heq | Hin]; [subst; contradiction |].
    exact (Hdis k (or_intror Hk) Hin).
Qed.

Lemma intersection_self l : NoDup l -> Pd.intersection l l = l.
Proof.
  intros Hnd. unfold Pd.intersection.
  rewrite filter_all by (intros x Hx; apply mem_In; exact Hx).
  apply unique_from_NoDup; [exact Hnd | intros k _ []].
Qed.

Section FittedKeys.

Variable linregress :
  list num -> list num -> result (num * num * num * num * num).
Variable np_sqrt : num -> num.

Lemma fit_symbol_NoDup self symbol ws self' :
  SingleIndexModel.fit_symbol linregress np_sqrt self symbol = (ws, Ok self') ->
  NoDup (map fst (SingleIndexModel.results self)) ->
  NoDup (map fst (SingleIndexModel.results self')).
Proof.
  unfold SingleIndexModel.fit_symbol.
  destruct (Nat.ltb _ 10).
  - cbn. intros H. inversion H; subst. auto.
  - destruct (linregress _ _) as [[[[[sl ic] r] pv] se] | e]; cbn;
      [| discriminate].
    intros H Hnd. inversion H; subst. cbn. apply dict_set_NoDup. exact Hnd.
Qed.

Lemma fit_loop_NoDup syms : forall self ws self',
  SingleIndexModel.fit_loop linregress np_sqrt syms self = (ws, Ok self') ->
  NoDup (map fst (SingleIndexModel.results self)) ->
  NoDup (map fst (SingleIndexModel.results self')).
Proof.
  induction syms as [| s syms IH]; intros self ws self' H Hnd.
  - cbn in H. inversion H; subst. exact Hnd.
  - cbn [SingleIndexModel.fit_loop] in H.
    apply bind_ok_inv in H. destruct H as (ws1 & a & ws2 & H1 & H2 & _).
    eapply IH; [exact H2 |]. eapply fit_symbol_NoDup; eassumption.
Qed.

End FittedKeys.

(** X8.  After [fit] on a new model, when at least one asset was fitted,
    the three Series a caller passes to the optimizer
    ([get_expected_returns], [get_all_betas], [get_all_residual_vars]) are
    returned, each indexed by the fitted assets, once each, in the order they
    were fitted; the alignment of [EGPOptimizer] therefore keeps every
    fitted asset, in that order. *)
Theorem fitted_assets_reach_the_optimizer :
  forall linregress np_sqrt self ws fitted risk_free_rate,
    SingleIndexModel.fit linregress np_sqrt self = (ws, Ok fitted) ->
    SingleIndexModel.results self = [] ->
    SingleIndexModel.results fitted <> [] ->
    let assets := map fst (SingleIndexModel.results fitted) in
    exists er bs rv,
      SingleIndexModel.get_expected_returns fitted risk_free_rate
      = ([], Ok er)
      /\ SingleIndexModel.get_all_betas fitted = ([], Ok bs)
      /\ SingleIndexModel.get_all_residual_vars fitted = ([], Ok rv)
      /\ Pd.index er = assets /\ Pd.index bs = assets /\ Pd.index rv = assets
      /\ NoDup assets
      /\ EGPOptimizer.aligned er bs rv = assets.
Proof.
  intros lr sq self ws fitted rf Hfit Hres Hne assets.
  pose proof (fit_market _ _ _ Hfit) as (Hm & _ & _).
  assert (Hnd : NoDup assets).
  { unfold SingleIndexModel.fit in Hfit.
    eapply fit_loop_NoDup; [exact Hfit |]. cbn. rewrite Hres. constructor. }
  unfold SingleIndexModel.get_expected_returns,
    SingleIndexModel.get_all_betas, SingleIndexModel.get_all_residual_vars.
  rewrite Hm.
  destruct (SingleIndexModel.results fitted) as [| r0 rs] eqn:E;
    [congruence |].
  do 3 eexists. split; [reflexivity |]. split; [reflexivity |].
  split; [reflexivity |].
  assert (Hi : forall f : string * SingleIndexModel.Params -> num,
             Pd.index (map (fun sp => (fst sp, f sp)) (r0 :: rs)) = assets).
  { intros f. unfold Pd.index, assets. rewrite map_map. reflexivity. }
  split; [apply (Hi (fun sp => _)) |].
  split; [apply (Hi (fun sp => _)) |].
  split; [apply (Hi (fun sp => _)) |].
  split; [exact Hnd |].
  unfold EGPOptimizer.aligned.
  rewrite (Hi (fun sp => _)), (Hi (fun sp => _)), (Hi (fun sp => _)).
  rewrite !intersection_self by exact Hnd. reflexivity.
Qed.

Lemma fitted_assets_reach_the_optimizer_witness :
  exists ws fitted,
    SingleIndexModel.fit Lib.linregress Lib.np_sqrt Ex.model10
    = (ws, Ok fitted)
    /\ exists er bs rv,
         SingleIndexModel.get_expected_returns fitted Num.zero = ([], Ok er)
         /\ EGPOptimizer.aligned er bs rv = ["A"%string].
Proof.
  eexists. eexists. split; [vm_compute; reflexivity |].
  match goal with
  | |- exists er bs rv,
         SingleIndexModel.get_expected_returns ?f _ = _ /\ _ =>
      destruct (@fitted_assets_reach_the_optimizer
                  Lib.linregress Lib.np_sqrt Ex.model10 [] f Num.zero)
        as (er & bs & rv & H1 & _ & _ & _ & _ & _ & _ & H8)
  end.
  - vm_compute. reflexivity.
  - reflexivity.
  - discriminate.
  - exists er, bs, rv. split; [exact H1 | exact H8].
Defined.

(** ** [optimize] without bounds on finite inputs *)































(** ** The queries of a fitted model *)

Lemma add_nonneg_or_nan a b :
  nonneg_or_nan a -> nonneg_or_nan b -> nonneg_or_nan (a + b)%num.
Proof.
  destruct a as [x | | |], b as [y | | |]; cbn -[Qred];
    auto; try contradiction.
  intros Hx Hy. unred. lra.
Qed.

Lemma mul_nonneg_or_nan a b :
  nonneg_or_nan a -> nonneg_or_nan b -> nonneg_or_nan (a * b)%num.
Proof.
  destruct a as [x | | |], b as [y | | |]; cbn -[Qred];
    auto; try contradiction.
  - intros Hx Hy. unred. nra.
  - intros Hx _. destruct (Num.Qsgn x) eqn:E; cbn; auto.
    unfold Num.Qsgn in E. destruct x as [n d]. unfold Qle in Hx.
    cbn in *. lia.
  - intros _ Hy. destruct (Num.Qsgn y) eqn:E; cbn; auto.
    unfold Num.Qsgn in E. destruct y as [n d]. unfold Qle in Hy.
    cbn in *. lia.
Qed.

Lemma np_sum_nonneg l :
  Forall nonneg_or_nan l -> nonneg_or_nan (Np.sum l).
Proof.
  unfold Np.sum.
  assert (H : forall acc, nonneg_or_nan acc -> Forall nonneg_or_nan l ->
                          nonneg_or_nan (fold_left Num.add l acc)).
  { induction l as [| x l IH]; intros acc Hacc Hl; cbn -[Num.add].
    - exact Hacc.
    - inversion Hl; subst. apply IH; [| assumption].
      apply add_nonneg_or_nan; assumption. }
  apply H. cbn. apply Qle_refl.
Qed.

Lemma np_sum_squares_nonneg (f : num -> num) l :
  nonneg_or_nan (Np.sum (map (fun x => (f x * f x)%num) l)).
Proof.
  apply np_sum_nonneg. apply Forall_map. apply Forall_forall.
  intros x _. apply square_nonneg.
Qed.

Lemma series_var_nonneg l : nonneg_or_nan (SingleIndexModel.series_var l).
Proof.
  unfold SingleIndexModel.series_var.
  destruct (Nat.leb _ 1) eqn:E; [exact I |].
  apply Nat.leb_gt in E.
  apply div_nonneg.
  - apply (np_sum_squares_nonneg (fun x => (_ - x)%num)).
  - cbn. apply Qle_bool_false.
    change 0 with (inject_Z 0). rewrite <- Zlt_Qlt. lia.
Qed.

Lemma dict_set_Forall {A} (P : string * A -> Prop) k v d :
  P (k, v) -> Forall P d -> Forall P (SingleIndexModel.dict_set k v d).
Proof.
  intros Hv. induction 1 as [| [k' v'] d Hx Hd IH]; cbn.
  - constructor; [exact Hv | constructor].
  - destruct (String.eqb k k'); constructor; auto.
Qed.

Section FittedVariances.

Variable linregress :
  list num -> list num -> result (num * num * num * num * num).
Variable np_sqrt : num -> num.

Lemma fit_symbol_variances self symbol ws self' :
  nonneg_variances (SingleIndexModel.results self) ->
  SingleIndexModel.fit_symbol linregress np_sqrt self symbol
  = (ws, Ok self') ->
  nonneg_variances (SingleIndexModel.results self').
Proof.
  unfold nonneg_variances. intros HP. unfold SingleIndexModel.fit_symbol.
  destruct (Nat.ltb _ 10) eqn:E.
  - intros H. inversion H; subst. exact HP.
  - apply Nat.ltb_ge in E.
    destruct (linregress _ _) as [[[[[sl ic] r] pv] se] | e];
      [| discriminate].
    intros H. inversion H; subst; clear H. cbn [SingleIndexModel.results].
    apply dict_set_Forall; [| exact HP].
    cbn [snd SingleIndexModel.residual_var].
    apply div_nonneg.
    + apply (np_sum_squares_nonneg (fun r => r)).
    + cbn. apply Qle_bool_false.
      change 0 with (inject_Z 0). rewrite <- Zlt_Qlt. lia.
Qed.

Lemma fit_loop_variances syms : forall self ws self',
  nonneg_variances (SingleIndexModel.results self) ->
  SingleIndexModel.fit_loop linregress np_sqrt syms self = (ws, Ok self') ->
  nonneg_variances (SingleIndexModel.results self').
Proof.
  induction syms as [| s syms IH]; intros self ws self' HP H.
  - cbn in H. inversion H; subst. exact HP.
  - cbn [SingleIndexModel.fit_loop] in H. apply bind_ok_inv in H.
    destruct H as (ws1 & self1 & ws2 & H1 & H2 & _).
    eapply IH; [| exact H2]. eapply fit_symbol_variances; eassumption.
Qed.

End FittedVariances.

(** X10. After [fit] on a freshly constructed model, [get_total_variance]
    raises [ValueError] when no asset was fitted, and otherwise returns one
    total variance per fitted asset, in the order of [get_all_betas], none
    of them negative (each is >= 0, +inf or nan).  The error about a
    missing market variance cannot occur after [fit]. *)
Theorem total_variance_after_fit
    (linregress :
       list num -> list num -> result (num * num * num * num * num))
    (np_sqrt : num -> num) self ws fitted :
  SingleIndexModel.fit linregress np_sqrt self = (ws, Ok fitted) ->
  SingleIndexModel.results self = [] ->
  (SingleIndexModel.results fitted = []
   /\ Queries.get_total_variance fitted
      = ([], Raise SingleIndexModel.no_results))
  \/ (exists tv bs,
        Queries.get_total_variance fitted = ([], Ok tv)
        /\ SingleIndexModel.get_all_betas fitted = ([], Ok bs)
        /\ Pd.index tv = Pd.index bs
        /\ Pd.index tv = map fst (SingleIndexModel.results fitted)
        /\ all_values nonneg_or_nan tv).
Proof.
  intros Hfit Hres.
  destruct (@fit_market linregress np_sqrt self ws fitted Hfit)
    as (_ & Hmv & _).
  assert (HP : nonneg_variances (SingleIndexModel.results fitted)).
  { unfold SingleIndexModel.fit in Hfit.
    eapply fit_loop_variances; [| exact Hfit].
    cbn. rewrite Hres. constructor. }
  unfold nonneg_variances in HP.
  unfold Queries.get_total_variance, SingleIndexModel.get_all_betas.
  rewrite Hmv.
  destruct (SingleIndexModel.results fitted) as [| sp rest] eqn:E.
  - left. split; reflexivity.
  - right. eexists. eexists. split; [reflexivity |].
    split; [reflexivity |]. rewrite <- E in *. clear E.
    unfold Pd.index. rewrite !map_map. cbn [fst].
    split; [reflexivity |]. split; [reflexivity |].
    unfold all_values. apply Forall_map.
    eapply Forall_impl; [| exact HP].
    intros kv Hkv. cbn [snd].
    apply add_nonneg_or_nan; [| exact Hkv].
    apply mul_nonneg_or_nan; [apply square_nonneg | apply series_var_nonneg].
Qed.

Lemma total_variance_after_fit_witness :
  exists fitted,
    SingleIndexModel.fit Lib.linregress Lib.np_sqrt Ex.model10
    = ([], Ok fitted)
    /\ ((SingleIndexModel.results fitted = []
         /\ Queries.get_total_variance fitted
            = ([], Raise SingleIndexModel.no_results))
        \/ (exists tv bs,
              Queries.get_total_variance fitted = ([], Ok tv)
              /\ SingleIndexModel.get_all_betas fitted = ([], Ok bs)
              /\ Pd.index tv = Pd.index bs
              /\ Pd.index tv = map fst (SingleIndexModel.results fitted)
              /\ all_values nonneg_or_nan tv)).
Proof.
  eexists. split; [vm_compute; reflexivity |].
  match goal with
  | |- (SingleIndexModel.results ?f = [] /\ _) \/ _ =>
      apply (@total_variance_after_fit Lib.linregress Lib.np_sqrt
               Ex.model10 [] f)
  end.
  - vm_compute. reflexivity.
  - reflexivity.
Defined.

(** X11. After [fit] on a freshly constructed model, [get_parameters]
    returns the estimates of exactly the assets that are columns of the
    returns table with at least 10 pairs free of nan, and raises
    [ValueError] for every other symbol. *)
Theorem get_parameters_after_fit
    (linregress :
       list num -> list num -> result (num * num * num * num * num))
    (np_sqrt : num -> num) self ws fitted symbol :
  SingleIndexModel.fit linregress np_sqrt self = (ws, Ok fitted) ->
  SingleIndexModel.results self = [] ->
  (In symbol (SingleIndexModel.symbols self)
   /\ (10 <= List.length (kept_pairs self symbol))%nat
   /\ exists p, Queries.get_parameters fitted symbol = ([], Ok p)
                /\ regressed linregress self symbol p)
  \/ ((~ In symbol (SingleIndexModel.symbols self)
       \/ (List.length (kept_pairs self symbol) < 10)%nat)
      /\ exists msg, Queries.get_parameters fitted symbol
                     = ([], Raise (ValueError msg))).
Proof.
  intros Hfit Hres. unfold SingleIndexModel.fit in Hfit.
  apply fit_loop_spec in Hfit. cbn [SingleIndexModel.symbols] in Hfit.
  destruct Hfit as (I1 & I2 & _ & _).
  assert (Hk : forall s,
             kept_pairs
               (SingleIndexModel.mk (SingleIndexModel.stock_returns self)
                  (SingleIndexModel.market_returns self)
                  (SingleIndexModel.symbols self)
                  (SingleIndexModel.results self)
                  (Some (SingleIndexModel.series_var
                           (map snd (SingleIndexModel.market_returns self))))
                  (Some (SingleIndexModel.series_mean
                           (map snd (SingleIndexModel.market_returns self)))))
               s = kept_pairs self s) by reflexivity.
  unfold Queries.get_parameters.
  destruct (SingleIndexModel.dict_get symbol
              (SingleIndexModel.results fitted)) as [p |] eqn:E.
  - left. destruct (I1 symbol p E) as [H0 | (Hin & Hlen & Hreg)].
    + cbn in H0. rewrite Hres in H0. discriminate.
    + rewrite Hk in Hlen. split; [exact Hin |]. split; [exact Hlen |].
      exists p. split; [reflexivity | exact Hreg].
  - right. split; [| eexists; reflexivity].
    destruct (in_dec string_dec symbol (SingleIndexModel.symbols self))
      as [Hin | Hnin]; [| left; exact Hnin].
    right. destruct (Nat.lt_ge_cases
                       (List.length (kept_pairs self symbol)) 10)
      as [Hlt | Hge]; [exact Hlt |].
    exfalso. apply (I2 symbol Hin); [rewrite Hk; exact Hge | exact E].
Qed.

Lemma get_parameters_after_fit_witness :
  exists fitted,
    SingleIndexModel.fit Lib.linregress Lib.np_sqrt Ex.model10
    = ([], Ok fitted)
    /\ ((In "A"%string (SingleIndexModel.symbols Ex.model10)
         /\ (10 <= List.length (kept_pairs Ex.model10 "A"%string))%nat
         /\ exists p, Queries.get_parameters fitted "A"%string = ([], Ok p)
                      /\ regressed Lib.linregress Ex.model10 "A"%string p)
        \/ ((~ In "A"%string (SingleIndexModel.symbols Ex.model10)
             \/ (List.length (kept_pairs Ex.model10 "A"%string) < 10)%nat)
            /\ exists msg, Queries.get_parameters fitted "A"%string
                           = ([], Raise (ValueError msg)))).
Proof.
  eexists. split; [vm_compute; reflexivity |].
  match goal with
  | |- (_ /\ _ /\ exists p, Queries.get_parameters ?f _ = _ /\ _) \/ _ =>
      apply (@get_parameters_after_fit Lib.linregress Lib.np_sqrt
               Ex.model10 [] f "A"%string)
  end.
  - vm_compute. reflexivity.
  - reflexivity.
Defined.


(** ** One "Apply max constraint" step *)
















(** ** One "Apply min constraint" step *)







